(** * ChatApp-MCP: the CV parser and the e-mail service

    A shallow embedding of [cv_parser.py] (class [CVParser]), of
    [email_service.py] (class [EmailService]) and of the endpoints of
    [main.py], with the properties the specification states about them
    and further properties read off the code.

    Conventions of the embedding.
    - A Python [str] is a [string] of 8-bit characters, the code points
      0 to 255; [lower], [strip], [split], [join], slicing and the [in]
      substring test are written out below with their Python behaviour
      on these code points.
    - A Python [dict] whose iteration order is observable
      ([cv_sections], the local [sections] and [section_patterns]) is an
      association list in insertion order.
    - A Python [float] confidence is a rational of [Q].  Every score the
      general search computes is a quotient of two small naturals with
      one common denominator, so the comparisons between scores and with
      the literal [0.1] agree with the rational ones.
    - Methods of [CVParser] run in a state-and-exception monad over the
      object's four mutable attributes; a raised exception keeps the
      mutations made before it, as in Python.
    - The libraries the code calls (PDF and DOCX readers, the file
      system, the spaCy pipeline, the NLTK tokenizer and stop-word list,
      the SendGrid and SMTP clients) are collaborators taken as
      parameters. *)

From Stdlib Require Import String Ascii List Bool Arith ZArith QArith Lia DecimalString
  Permutation.
Import ListNotations.
Close Scope Q_scope.
Local Open Scope nat_scope.
Local Open Scope string_scope.

(** ** Python string primitives *)

Module Py.

(** [str.isspace] on one 8-bit character: tab, line feed, vertical tab,
    form feed, carriage return, the four separators 0x1c-0x1f, space,
    next line (0x85) and no-break space (0xa0).  The regular-expression
    class [\s] on [str] patterns is the same set. *)
Definition is_space (c : ascii) : bool :=
  let n := nat_of_ascii c in
  ((9 <=? n)%nat && (n <=? 13)%nat) || ((28 <=? n)%nat && (n <=? 32)%nat) ||
  (n =? 133)%nat || (n =? 160)%nat.

Definition is_upper (c : ascii) : bool :=
  let n := nat_of_ascii c in (65 <=? n)%nat && (n <=? 90)%nat.

Definition is_lower (c : ascii) : bool :=
  let n := nat_of_ascii c in (97 <=? n)%nat && (n <=? 122)%nat.

Definition is_digit (c : ascii) : bool :=
  let n := nat_of_ascii c in (48 <=? n)%nat && (n <=? 57)%nat.

(** The upper-case letters below 256: A-Z, and 0xc0-0xde without the
    multiplication sign 0xd7. *)
Definition has_lower_case (c : ascii) : bool :=
  let n := nat_of_ascii c in
  is_upper c || ((192 <=? n)%nat && (n <=? 222)%nat && negb (n =? 215)%nat).

(** [c.lower()]; each of these letters has its lower case 32 above. *)
Definition lower_char (c : ascii) : ascii :=
  if has_lower_case c then ascii_of_nat (nat_of_ascii c + 32) else c.

(** [s.lower()] *)
Fixpoint lower (s : string) : string :=
  match s with
  | EmptyString => EmptyString
  | String c s' => String (lower_char c) (lower s')
  end.

(** [s.lstrip()] *)
Fixpoint lstrip (s : string) : string :=
  match s with
  | EmptyString => EmptyString
  | String c s' => if is_space c then lstrip s' else s
  end.

(** [s.rstrip()] *)
Fixpoint rstrip (s : string) : string :=
  match s with
  | EmptyString => EmptyString
  | String c s' =>
      match rstrip s' with
      | EmptyString => if is_space c then EmptyString else String c EmptyString
      | r => String c r
      end
  end.

(** [s.strip()] *)
Definition strip (s : string) : string := rstrip (lstrip s).

(** Truth value of a string: [bool(s)], false exactly on [""]. *)
Definition truthy (s : string) : bool :=
  match s with EmptyString => false | String _ _ => true end.

(** [s.split(sep)] for a one-character separator: never returns the
    empty list, [''.split(sep) == ['']]. *)
Fixpoint split (sep : ascii) (s : string) : list string :=
  match s with
  | EmptyString => [EmptyString]
  | String c s' =>
      if Ascii.eqb c sep then EmptyString :: split sep s'
      else match split sep s' with
           | h :: t => String c h :: t
           | [] => [String c EmptyString]
           end
  end.

(** [sep.join(l)] *)
Definition join (sep : string) (l : list string) : string := String.concat sep l.

(** [w in s] on strings: [w] occurs in [s] as a contiguous substring. *)
Fixpoint contains (w s : string) : bool :=
  String.prefix w s ||
  match s with
  | EmptyString => false
  | String _ s' => contains w s'
  end.

(** [s[:n]] *)
Definition take (n : nat) (s : string) : string := String.substring 0 n s.

(** [x in l] on a list of strings. *)
Definition mem (x : string) (l : list string) : bool :=
  existsb (String.eqb x) l.

(** [any(w in s for w in words)] *)
Definition any_in (words : list string) (s : string) : bool :=
  existsb (fun w => contains w s) words.

(** [d.get(k, default)] on an insertion-ordered dictionary. *)
Fixpoint get {V : Type} (d : list (string * V)) (k : string) (default : V) : V :=
  match d with
  | [] => default
  | (k', v) :: d' => if String.eqb k' k then v else get d' k default
  end.

Definition nl : ascii := ascii_of_nat 10.
Definition NL : string := String nl EmptyString.

End Py.

(** ** A backtracking matcher for the regular expressions of the code

    The patterns in [cv_parser.py] use literals, alternation, one capture
    group, character classes and greedy repetition of a class.  The
    matcher is the usual backtracking one in continuation-passing style:
    alternatives are tried left to right, a repetition takes as many
    characters as it can and gives them back one at a time. *)

Module Re.

Inductive regex : Type :=
| Chr (c : ascii)
| Cls (p : ascii -> bool)
| Star (p : ascii -> bool)
| Plus (p : ascii -> bool)
| Lit (w : string)
| Alt (r1 r2 : regex)
| Cat (r1 r2 : regex)
| Group (r : regex).

Section Matcher.
Context {T : Type}.

(** Greedy [p*] followed by the continuation [k]. *)
Fixpoint star (p : ascii -> bool) (s : string) (k : string -> option T) : option T :=
  match s with
  | String c s' =>
      if p c then
        match star p s' k with
        | Some x => Some x
        | None => k s
        end
      else k s
  | EmptyString => k s
  end.

(** The literal [w] followed by [k]. *)
Fixpoint lit (w : string) (s : string) (k : string -> option T) : option T :=
  match w, s with
  | EmptyString, _ => k s
  | String a w', String c s' => if Ascii.eqb a c then lit w' s' k else None
  | String _ _, EmptyString => None
  end.

(** [run r s g k]: match [r] at the start of [s]; [g] is the text of
    group 1 so far; [k] receives the rest of the subject. *)
Fixpoint run (r : regex) (s : string) (g : option string)
         (k : string -> option string -> option T) : option T :=
  match r with
  | Chr a =>
      match s with
      | String c s' => if Ascii.eqb a c then k s' g else None
      | EmptyString => None
      end
  | Cls p =>
      match s with
      | String c s' => if p c then k s' g else None
      | EmptyString => None
      end
  | Star p => star p s (fun s' => k s' g)
  | Plus p =>
      match s with
      | String c s' => if p c then star p s' (fun s'' => k s'' g) else None
      | EmptyString => None
      end
  | Lit w => lit w s (fun s' => k s' g)
  | Alt r1 r2 =>
      match run r1 s g k with
      | Some x => Some x
      | None => run r2 s g k
      end
  | Cat r1 r2 => run r1 s g (fun s' g' => run r2 s' g' k)
  | Group r1 =>
      run r1 s g
        (fun s' _ => k s' (Some (Py.take (String.length s - String.length s') s)))
  end.
End Matcher.

(** [re.search(r, s)]: the leftmost match; [Some g] carries group 1. *)
Fixpoint search (r : regex) (s : string) : option (option string) :=
  match run r s None (fun _ g => Some g) with
  | Some g => Some g
  | None =>
      match s with
      | EmptyString => None
      | String _ s' => search r s'
      end
  end.

(** Truth value of a match object. *)
Definition matches (r : regex) (s : string) : bool :=
  match search r s with Some _ => true | None => false end.

(** [(w1|w2|...)] *)
Fixpoint words (ws : list string) : regex :=
  match ws with
  | [] => Cls (fun _ => false)
  | [w] => Lit w
  | w :: ws' => Alt (Lit w) (words ws')
  end.

End Re.

(** ** The mutable object and its monad *)

Inductive exn : Type :=
| ValueError (msg : string)
| Exception (msg : string)
| LibraryError (msg : string).

(** [str(e)] *)
Definition exn_str (e : exn) : string :=
  match e with ValueError m | Exception m | LibraryError m => m end.

Inductive Result (A : Type) : Type :=
| Ok (a : A)
| Raise (e : exn).
Arguments Ok {A} a.
Arguments Raise {A} e.

(** The attributes [__init__] creates and [load_cv] assigns. *)
Record CVParser : Type := mkCVParser {
  cv_content : string;
  cv_sections : list (string * string);
  cv_entities : list (string * list string);
  is_loaded : bool
}.

(** [CVParser.__init__] *)
Definition init : CVParser :=
  {| cv_content := ""; cv_sections := []; cv_entities := []; is_loaded := false |}.

(** A method body: it reads and writes [self] and returns or raises. *)
Definition M (A : Type) : Type := CVParser -> Result A * CVParser.

Definition ret {A} (a : A) : M A := fun self => (Ok a, self).

Definition bind {A B} (m : M A) (f : A -> M B) : M B :=
  fun self =>
    match m self with
    | (Ok a, self') => f a self'
    | (Raise e, self') => (Raise e, self')
    end.

Definition raise {A} (e : exn) : M A := fun self => (Raise e, self).

(** [try: m except Exception as e: h e] *)
Definition try_except {A} (m : M A) (h : exn -> M A) : M A :=
  fun self =>
    match m self with
    | (Ok a, self') => (Ok a, self')
    | (Raise e, self') => h e self'
    end.

(** A call into a library that touches no attribute of [self]. *)
Definition lift {A} (r : Result A) : M A := fun self => (r, self).

(** [self.f] *)
Definition gets {A} (f : CVParser -> A) : M A := fun self => (Ok (f self), self).

(** [self.cv_content = v] and its three siblings *)
Definition set_cv_content (v : string) : M unit :=
  fun self => (Ok tt, {| cv_content := v; cv_sections := cv_sections self;
                         cv_entities := cv_entities self; is_loaded := is_loaded self |}).

Definition set_cv_sections (v : list (string * string)) : M unit :=
  fun self => (Ok tt, {| cv_content := cv_content self; cv_sections := v;
                         cv_entities := cv_entities self; is_loaded := is_loaded self |}).

Definition set_cv_entities (v : list (string * list string)) : M unit :=
  fun self => (Ok tt, {| cv_content := cv_content self; cv_sections := cv_sections self;
                         cv_entities := v; is_loaded := is_loaded self |}).

Definition set_is_loaded (v : bool) : M unit :=
  fun self => (Ok tt, {| cv_content := cv_content self; cv_sections := cv_sections self;
                         cv_entities := cv_entities self; is_loaded := v |}).

Declare Scope py_scope.
Delimit Scope py_scope with py.
Notation "x <- m ;; k" := (bind m (fun x => k))
  (at level 61, m at next level, right associativity) : py_scope.
Notation "m ;; k" := (bind m (fun _ => k))
  (at level 61, right associativity) : py_scope.
Local Open Scope py_scope.

(** ** The libraries behind the parser *)

(** What the code calls and does not define.
    - [pdfplumber_open path]: opening the PDF may raise; each page's
      [extract_text()] may raise, or return [None] or a string.
    - [pypdf2_open path]: likewise with PyPDF2; a page returns a string.
    - [docx_paragraphs path]: the paragraphs' texts of a DOCX document.
    - [read_text path]: [open(path, 'r', encoding='utf-8').read()].
    - [nlp text]: the call [self.nlp(text)] of the spaCy pipeline: it
      may raise (the pipeline refuses a text longer than its limit),
      else it gives the entities of the document, as (label, text)
      pairs in document order.
    - [word_tokenize], [stop_words]: the NLTK tokenizer and the English
      stop-word set kept in [self.stop_words].
    - [set_iter l]: the order in which [set(l)] is iterated by [join];
      a function of the list within one process. *)
Record Libs : Type := mkLibs {
  pdfplumber_open : string -> Result (list (Result (option string)));
  pypdf2_open : string -> Result (list (Result string));
  docx_paragraphs : string -> Result (list string);
  read_text : string -> Result string;
  nlp : string -> Result (list (string * string));
  word_tokenize : string -> list string;
  stop_words : list string;
  set_iter : list string -> list string
}.

(** [pathlib.Path(p).name]: the last component of the path; empty
    components and [.] components are dropped when the path is parsed. *)
Definition path_name (p : string) : string :=
  last (filter (fun c => Py.truthy c && negb (String.eqb c "."))
               (Py.split "/" p)) "".

(** [name.rfind('.')] *)
Fixpoint rfind_dot (s : string) : option nat :=
  match s with
  | EmptyString => None
  | String c s' =>
      match rfind_dot s' with
      | Some i => Some (S i)
      | None => if Ascii.eqb c "." then Some 0 else None
      end
  end.

(** [pathlib.Path(p).suffix]: from the last dot of the name, unless the
    dot is the first or the last character of the name. *)
Definition suffix (p : string) : string :=
  let name := path_name p in
  match rfind_dot name with
  | Some i =>
      if ((0 <? i) && (i <? String.length name - 1))%nat
      then String.substring i (String.length name - i) name
      else ""
  | None => ""
  end.

(** ** [cv_parser.py] *)

(** The local [section_patterns] of [_parse_cv_sections], in the order
    the dictionary literal lists them. *)
Definition section_patterns : list (string * Re.regex) :=
  [ ("personal_info", Re.Group (Re.words ["personal"; "contact"; "details"]));
    ("summary", Re.Group (Re.words ["summary"; "profile"; "objective"; "about"]));
    ("experience",
      Re.Group (Re.words ["experience"; "employment"; "work"; "career"; "professional"]));
    ("education", Re.Group (Re.words ["education"; "academic"; "qualification"; "degree"]));
    ("skills", Re.Group (Re.words ["skills"; "competencies"; "technologies"; "technical"]));
    ("clubs", Re.Group (Re.words ["clubs"; "unions"]));
    ("projects", Re.Group (Re.words ["projects"; "portfolio"]));
    ("achievements",
      Re.Group (Re.words ["achievements"; "awards"; "honors"; "accomplishments"])) ].

(** The local [sections] of [_parse_cv_sections] before the loop. *)
Definition empty_sections : list (string * list string) :=
  [ ("personal_info", []); ("summary", []); ("experience", []); ("education", []);
    ("skills", []); ("clubs", []); ("projects", []); ("achievements", []);
    ("other", []) ].

(** The test of the inner [for]: [re.search(pattern, line_lower) and
    len(line) < 50]. *)
Definition header_test (pattern : Re.regex) (line : string) : bool :=
  Re.matches pattern (Py.lower line) && (String.length line <? 50)%nat.

(** The inner [for ... else]: [Some section] when the loop leaves by
    [break] at [section], [None] when it runs to its [else]. *)
Fixpoint find_header (patterns : list (string * Re.regex)) (line : string)
  : option string :=
  match patterns with
  | [] => None
  | (section, pattern) :: rest =>
      if header_test pattern line then Some section else find_header rest line
  end.

(** [sections[section].append(line)]; the key is always one of the nine. *)
Fixpoint append_line (section line : string) (sections : list (string * list string))
  : list (string * list string) :=
  match sections with
  | [] => []
  | (k, v) :: rest =>
      if String.eqb k section then (k, (v ++ [line])%list) :: rest
      else (k, v) :: append_line section line rest
  end.

(** One turn of the outer [for line in lines] on the loop state
    [(current_section, sections)]. *)
Definition segment_step (st : string * list (string * list string)) (raw : string)
  : string * list (string * list string) :=
  let line := Py.strip raw in
  if negb (Py.truthy line) then st
  else
    match find_header section_patterns line with
    | Some section => (section, snd st)
    | None => (fst st, append_line (fst st) line (snd st))
    end.

Definition segment_loop (lines : list string) : string * list (string * list string) :=
  fold_left segment_step lines ("other", empty_sections).

(** [{k: '\n'.join(v) for k, v in sections.items() if v}] *)
Definition joined_sections (sections : list (string * list string))
  : list (string * string) :=
  map (fun kv => (fst kv, Py.join Py.NL (snd kv)))
      (filter (fun kv => match snd kv with [] => false | _ => true end) sections).

(** The value [_parse_cv_sections] assigns to [self.cv_sections]. *)
Definition parse_sections (content : string) : list (string * string) :=
  joined_sections (snd (segment_loop (Py.split Py.nl content))).

(** [CVParser._parse_cv_sections] *)
Definition _parse_cv_sections : M unit :=
  content <- gets cv_content ;;
  set_cv_sections (parse_sections content).

(** The local [entities] of [_extract_entities]. *)
Record Entities : Type := mkEntities {
  persons : list string;
  organizations : list string;
  locations : list string;
  dates : list string;
  technologies : list string
}.

Definition entities_dict (e : Entities) : list (string * list string) :=
  [ ("persons", persons e); ("organizations", organizations e);
    ("locations", locations e); ("dates", dates e);
    ("technologies", technologies e) ].

(** One turn of [for ent in doc.ents] on the (label, text) pair. *)
Definition route_entity (e : Entities) (ent : string * string) : Entities :=
  let (label, text) := ent in
  if String.eqb label "PERSON" then
    mkEntities (persons e ++ [text])%list (organizations e) (locations e) (dates e) (technologies e)
  else if Py.mem label ["ORG"; "COMPANY"] then
    mkEntities (persons e) (organizations e ++ [text])%list (locations e) (dates e) (technologies e)
  else if Py.mem label ["GPE"; "LOC"] then
    mkEntities (persons e) (organizations e) (locations e ++ [text])%list (dates e) (technologies e)
  else if String.eqb label "DATE" then
    mkEntities (persons e) (organizations e) (locations e) (dates e ++ [text])%list (technologies e)
  else e.

(** The class [[A-Za-z0-9 &.,-]] *)
Definition company_char (c : ascii) : bool :=
  Py.is_upper c || Py.is_lower c || Py.is_digit c ||
  existsb (Ascii.eqb c) [" "; "&"; "."; ","; "-"]%char.

(** [company_regex = r'\|\s*([A-Za-z0-9 &.,-]+)\s*\|'] *)
Definition company_regex : Re.regex :=
  Re.Cat (Re.Chr "|")
    (Re.Cat (Re.Star Py.is_space)
       (Re.Cat (Re.Group (Re.Plus company_char))
          (Re.Cat (Re.Star Py.is_space) (Re.Chr "|")))).

(** One turn of [for line in experience_section.split('\n')] on the
    list [entities['organizations']]. *)
Definition company_step (orgs : list string) (line : string) : list string :=
  match Re.search company_regex line with
  | Some (Some g) =>
      let company := Py.strip g in
      if Py.truthy company && negb (Py.mem company orgs)
      then (orgs ++ [company])%list else orgs
  | _ => orgs
  end.

Definition tech_keywords : list string :=
  [ "python"; "java"; "javascript"; "react"; "node.js"; "sql"; "mongodb";
    "aws"; "docker"; "kubernetes"; "git"; "linux"; "tensorflow"; "pytorch";
    "html"; "css"; "angular"; "vue"; "django"; "flask"; "fastapi" ].

Definition no_entities : Entities := mkEntities [] [] [] [] [].

(** The answer triple [(answer, confidence, sources)]. *)
Definition Answer : Type := string * Q * list string.

Definition role_words : list string :=
  [ "engineer"; "developer"; "manager"; "analyst"; "director"; "lead";
    "senior"; "junior" ].

(** [overlap / max(len(question_words), 1)] *)
Definition ratio (overlap n : nat) : Q :=
  Z.of_nat overlap # Pos.of_nat (Nat.max n 1).

(** [a > b] on confidences *)
Definition Qgtb (a b : Q) : bool := negb (Qle_bool a b).

Section Parser.
Variable L : Libs.

(** The [try] block of [_extract_pdf_content] over the pages of
    pdfplumber: the text gathered so far and the exception that
    stopped the loop, if one did. *)
Fixpoint plumber_pages (pages : list (Result (option string))) (content : string)
  : string * option exn :=
  match pages with
  | [] => (content, None)
  | Raise e :: _ => (content, Some e)
  | Ok text :: rest =>
      plumber_pages rest
        (match text with
         | Some t => if Py.truthy t then content ++ t ++ Py.NL else content
         | None => content
         end)
  end.

(** The fallback loop over the pages of PyPDF2. *)
Fixpoint pypdf2_pages (pages : list (Result string)) (content : string)
  : Result string :=
  match pages with
  | [] => Ok content
  | Raise e :: _ => Raise e
  | Ok t :: rest => pypdf2_pages rest (content ++ t ++ Py.NL)
  end.

Definition pypdf2_fallback (file_path content : string) : Result string :=
  match
    match pypdf2_open L file_path with
    | Ok pages => pypdf2_pages pages content
    | Raise e => Raise e
    end
  with
  | Ok c => Ok c
  | Raise e => Raise (Exception ("Failed to extract PDF content: " ++ exn_str e))
  end.

(** [CVParser._extract_pdf_content] *)
Definition _extract_pdf_content (file_path : string) : Result string :=
  match pdfplumber_open L file_path with
  | Ok pages =>
      match plumber_pages pages "" with
      | (content, None) => Ok content
      | (content, Some _) => pypdf2_fallback file_path content
      end
  | Raise _ => pypdf2_fallback file_path ""
  end.

(** [CVParser._extract_docx_content] *)
Definition _extract_docx_content (file_path : string) : Result string :=
  match docx_paragraphs L file_path with
  | Ok paragraphs =>
      Ok (fold_left (fun content text => content ++ text ++ Py.NL) paragraphs "")
  | Raise e => Raise (Exception ("Failed to extract DOCX content: " ++ exn_str e))
  end.

(** The value [_extract_entities] assigns to [self.cv_entities] when
    the pipeline answered with the entities [ents]. *)
Definition extract (ents : list (string * string)) (content : string)
           (sections : list (string * string))
  : list (string * list string) :=
  let e1 := fold_left route_entity ents no_entities in
  let experience_section := Py.get sections "experience" "" in
  let orgs := fold_left company_step (Py.split Py.nl experience_section)
                        (organizations e1) in
  let content_lower := Py.lower content in
  let techs := filter (fun tech => Py.contains tech content_lower) tech_keywords in
  entities_dict
    (mkEntities (persons e1) orgs (locations e1) (dates e1) (technologies e1 ++ techs)%list).

(** [CVParser._extract_entities] *)
Definition _extract_entities : M unit :=
  content <- gets cv_content ;;
  ents <- lift (nlp L content) ;;
  sections <- gets cv_sections ;;
  set_cv_entities (extract ents content sections).

(** The extraction strategy [load_cv] picks from the extension. *)
Definition read_content (file_path : string) : Result string :=
  let file_extension := Py.lower (suffix file_path) in
  if String.eqb file_extension ".pdf" then _extract_pdf_content file_path
  else if Py.mem file_extension [".docx"; ".doc"] then _extract_docx_content file_path
  else if String.eqb file_extension ".txt" then read_text L file_path
  else Raise (ValueError ("Unsupported file format: " ++ file_extension)).

(** [CVParser.load_cv]; the [print] of the handler is not modelled. *)
Definition load_cv (file_path : string) : M bool :=
  try_except
    (content <- lift (read_content file_path) ;;
     if Py.truthy (Py.strip content) then
       set_cv_content content ;;
       _parse_cv_sections ;;
       _extract_entities ;;
       set_is_loaded true ;;
       ret true
     else ret false)
    (fun _ => ret false).
End Parser.

Section Answering.
Variable L : Libs.

(** [CVParser._answer_role_question] *)
Definition _answer_role_question (question : string) : M Answer :=
  sections <- gets cv_sections ;;
  let experience_section := Py.get sections "experience" "" in
  if negb (Py.truthy experience_section) then
    ret ("No work experience information found in the CV.", 0.3%Q, [])
  else
    let lines := Py.split Py.nl experience_section in
    let roles :=
      map Py.strip
          (filter (fun line => Py.any_in role_words (Py.lower line)) lines) in
    match roles with
    | first :: _ =>
        let q := Py.lower question in
        let answer :=
          if Py.contains "last" q || Py.contains "recent" q || Py.contains "current" q
          then "Your most recent role appears to be: " ++ first
          else "Your roles include: " ++ Py.join ", " (firstn 3 roles) in
        ret (answer, 0.8%Q, ["experience"])
    | [] => ret ("Could not identify specific roles in your CV.", 0.4%Q, ["experience"])
    end.

(** [CVParser._answer_education_question] *)
Definition _answer_education_question (question : string) : M Answer :=
  sections <- gets cv_sections ;;
  let education_section := Py.get sections "education" "" in
  if negb (Py.truthy education_section) then
    ret ("No education information found in the CV.", 0.3%Q, [])
  else ret ("Education details: " ++ education_section, 0.7%Q, ["education"]).

(** [CVParser._answer_skills_question] *)
Definition _answer_skills_question (question : string) : M Answer :=
  sections <- gets cv_sections ;;
  entities <- gets cv_entities ;;
  let skills_section := Py.get sections "skills" "" in
  let technologies := Py.get entities "technologies" [] in
  match technologies with
  | _ :: _ =>
      let tech_list := Py.join ", " (set_iter L technologies) in
      ret ("Technologies and skills mentioned: " ++ tech_list, 0.8%Q, ["skills"])
  | [] =>
      if Py.truthy skills_section then
        ret ("Skills section: " ++ Py.take 200 skills_section ++ "...", 0.7%Q, ["skills"])
      else
        ret ("No specific skills section found, but may be mentioned throughout the CV.",
             0.4%Q, ["skills"])
  end.

(** [CVParser._answer_experience_question] *)
Definition _answer_experience_question (question : string) : M Answer :=
  sections <- gets cv_sections ;;
  entities <- gets cv_entities ;;
  let experience_section := Py.get sections "experience" "" in
  let organizations := Py.get entities "organizations" [] in
  match organizations with
  | _ :: _ =>
      let org_list := Py.join ", " (set_iter L organizations) in
      ret ("Companies/organizations mentioned: " ++ org_list, 0.8%Q, ["experience"])
  | [] =>
      if Py.truthy experience_section then
        ret ("Work experience: " ++ Py.take 200 experience_section ++ "...",
             0.7%Q, ["experience"])
      else ret ("No work experience section found.", 0.3%Q, ["experience"])
  end.

(** [CVParser._answer_projects_question] *)
Definition _answer_projects_question (question : string) : M Answer :=
  sections <- gets cv_sections ;;
  let projects_section := Py.get sections "projects" "" in
  if Py.truthy projects_section then
    ret ("Projects: " ++ Py.take 200 projects_section ++ "...", 0.7%Q, ["projects"])
  else ret ("No dedicated projects section found.", 0.3%Q, []).

(** [[word.lower() for word in word_tokenize(text)
      if word.lower() not in self.stop_words]] *)
Definition content_words (text : string) : list string :=
  filter (fun w => negb (Py.mem w (stop_words L)))
         (map Py.lower (word_tokenize L text)).

(** [len(set(question_words) & set(content_words))] *)
Definition overlap (question_words content_words : list string) : nat :=
  List.length (nodup string_dec
                 (filter (fun w => Py.mem w content_words) question_words)).

(** The score of one section. *)
Definition score (question_words : list string) (content : string) : Q :=
  ratio (overlap question_words (content_words content)) (List.length question_words).

(** One turn of [for section_name, content in self.cv_sections.items()]
    on the loop state [(best_match, best_score, sources)]. *)
Definition search_step (question_words : list string) (st : Answer)
           (item : string * string) : Answer :=
  let '(best_match, best_score, sources) := st in
  let (section_name, content) := item in
  if negb (Py.truthy content) then st
  else
    let sc := score question_words content in
    if Qgtb sc best_score
    then (Py.take 300 content ++ "...", sc, [section_name])
    else st.

Definition not_found : Answer :=
  ("I couldn't find relevant information in the CV to answer that question.",
   0.2%Q, []).

(** [CVParser._general_search] *)
Definition _general_search (question : string) : M Answer :=
  let question_words := content_words question in
  sections <- gets cv_sections ;;
  let '(best_match, best_score, sources) :=
    fold_left (search_step question_words) sections ("", 0%Q, []) in
  if Qgtb best_score 0.1%Q
  then ret (best_match, best_score, sources)
  else ret not_found.

(** [CVParser.answer_question] *)
Definition answer_question (question : string) : M Answer :=
  loaded <- gets is_loaded ;;
  if negb loaded then ret ("No CV loaded", 0.0%Q, [])
  else
    let question_lower := Py.lower question in
    if Py.any_in ["role"; "position"; "job"; "title"] question_lower then
      _answer_role_question question
    else if Py.any_in ["education"; "degree"; "study"; "university"; "college"]
                      question_lower then
      _answer_education_question question
    else if Py.any_in ["skill"; "technology"; "programming"; "tech"] question_lower then
      _answer_skills_question question
    else if Py.any_in ["experience"; "work"; "company"; "employer"] question_lower then
      _answer_experience_question question
    else if Py.any_in ["project"; "built"; "developed"] question_lower then
      _answer_projects_question question
    else _general_search question.
End Answering.

(** ** [email_service.py] *)

Module Email.

(** The attributes [EmailService.__init__] reads from the environment;
    [os.getenv] gives [None] or a string. *)
Record EmailService : Type := mkEmailService {
  sendgrid_api_key : option string;
  smtp_server : string;
  smtp_port : nat;
  smtp_username : option string;
  smtp_password : option string;
  from_email : string
}.

(** Truth value of an [Optional[str]]. *)
Definition truthy (o : option string) : bool :=
  match o with Some s => Py.truthy s | None => false end.

(** The MIME message [_send_with_smtp] builds. *)
Record Message : Type := mkMessage {
  msg_subject : string;
  msg_from : option string;
  msg_to : string;
  msg_subtype : string;
  msg_body : string
}.

(** What reaches a transport: the request [sg.send] makes, and every
    call into [smtplib] that opens or uses a connection, the QUIT sent
    on leaving the [with] block included. *)
Inductive Event : Type :=
| SendGridSend (from to subject html_content : string)
| SmtpConnect (server : string) (port : nat)
| SmtpStartTls
| SmtpLogin (username password : option string)
| SmtpSendMessage (m : Message)
| SmtpQuit.

Inductive LoginResult : Type :=
| LoginOk
| SMTPAuthenticationError (msg : string)
| LoginError (e : exn).

(** The answers of the two transports and the module constant
    [SENDGRID_AVAILABLE], set by the guarded import.
    - [sg_mail from to subject body]: building [Mail(...)], which sends
      nothing and may raise.
    - [sg_client key]: building [SendGridAPIClient(api_key=key)], which
      sends nothing and may raise.
    - [sg_send]: the request of [sg.send(message)]; the status code of
      the response, or the exception raised.
    - [smtp_connect]: [smtplib.SMTP(server, port)], which connects.
    - [smtp_quit]: what leaving [with smtplib.SMTP(...) as server] does:
      it sends QUIT and raises on a reply other than 221 (a server that
      already hung up counts as [Ok]). *)
Record Network : Type := mkNetwork {
  SENDGRID_AVAILABLE : bool;
  sg_mail : string -> string -> string -> string -> Result unit;
  sg_client : option string -> Result unit;
  sg_send : string -> string -> string -> string -> Result nat;
  smtp_connect : string -> nat -> Result unit;
  smtp_starttls : Result unit;
  smtp_login : option string -> option string -> LoginResult;
  smtp_send_message : Message -> Result unit;
  smtp_quit : Result unit
}.

(** [str(n)] *)
Definition str_nat (n : nat) : string := NilEmpty.string_of_uint (Nat.to_uint n).

Definition guidance : string :=
  "Email service not configured. Please set up SendGrid API key or SMTP credentials.".

Section Service.
Variable N : Network.
Variable self : EmailService.

(** [EmailService.is_configured] *)
Definition is_configured : bool :=
  if SENDGRID_AVAILABLE N && truthy (sendgrid_api_key self) then true
  else if truthy (smtp_username self) && truthy (smtp_password self) then true
  else false.

(** [EmailService._send_with_sendgrid]: the result and the transport
    calls made, in order.  The whole body is in one [try]: a fault while
    the message or the client is built is reported before any request. *)
Definition _send_with_sendgrid (recipient subject body : string)
  : (bool * string) * list Event :=
  match sg_mail N (from_email self) recipient subject body with
  | Raise e => ((false, "SendGrid error: " ++ exn_str e), [])
  | Ok _ =>
      match sg_client N (sendgrid_api_key self) with
      | Raise e => ((false, "SendGrid error: " ++ exn_str e), [])
      | Ok _ =>
          let ev := [SendGridSend (from_email self) recipient subject body] in
          match sg_send N (from_email self) recipient subject body with
          | Ok status_code =>
              if existsb (Nat.eqb status_code) [200; 201; 202]
              then ((true, "Email sent successfully via SendGrid"), ev)
              else ((false, "SendGrid error: " ++ str_nat status_code), ev)
          | Raise e => ((false, "SendGrid error: " ++ exn_str e), ev)
          end
      end
  end.

Definition smtp_failure (e : exn) : bool * string :=
  (false, "SMTP error: " ++ exn_str e ++
          ". Check your email credentials and server settings.").

(** The body of the [with smtplib.SMTP(...) as server] block: what it
    returns or raises, rendered as the result the function would give,
    and the calls made after the connection. *)
Definition smtp_session (message : Message) : (bool * string) * list Event :=
  let e2 := [SmtpStartTls] in
  match smtp_starttls N with
  | Raise e => (smtp_failure e, e2)
  | Ok _ =>
      let e3 := (e2 ++ [SmtpLogin (smtp_username self) (smtp_password self)])%list in
      match smtp_login N (smtp_username self) (smtp_password self) with
      | SMTPAuthenticationError auth_error =>
          if Py.contains "gmail" (Py.lower (smtp_server self)) then
            ((false, "Gmail authentication failed. Make sure you're using an App Password, not your regular password. Enable 2FA and generate an App Password in your Google Account settings."), e3)
          else
            ((false, "Authentication failed for " ++ smtp_server self ++ ": "
                     ++ auth_error), e3)
      | LoginError e => (smtp_failure e, e3)
      | LoginOk =>
          let e4 := (e3 ++ [SmtpSendMessage message])%list in
          match smtp_send_message N message with
          | Raise e => (smtp_failure e, e4)
          | Ok _ => ((true, "Email sent successfully via " ++ smtp_server self), e4)
          end
      end
  end.

(** [EmailService._send_with_smtp].  Leaving the [with] block, by its
    end, by a [return] or by an exception, sends QUIT; an exception
    raised there replaces whatever the block was leaving with and
    reaches the handler. *)
Definition _send_with_smtp (recipient subject body : string)
  : (bool * string) * list Event :=
  let sender :=
    if negb (String.eqb (from_email self) "noreply@example.com")
    then Some (from_email self) else smtp_username self in
  let subtype :=
    if Py.contains "<html>" (Py.lower body) || Py.contains "<p>" (Py.lower body)
    then "html" else "plain" in
  let message := mkMessage subject sender recipient subtype body in
  let e1 := [SmtpConnect (smtp_server self) (smtp_port self)] in
  match smtp_connect N (smtp_server self) (smtp_port self) with
  | Raise e => (smtp_failure e, e1)
  | Ok _ =>
      let (leaving, calls) := smtp_session message in
      (match smtp_quit N with
       | Raise e => smtp_failure e
       | Ok _ => leaving
       end,
       (e1 ++ calls ++ [SmtpQuit])%list)
  end.

(** [EmailService.send_email] *)
Definition send_email (recipient subject body : string)
  : (bool * string) * list Event :=
  if negb is_configured then ((false, guidance), [])
  else if SENDGRID_AVAILABLE N && truthy (sendgrid_api_key self) then
    _send_with_sendgrid recipient subject body
  else if truthy (smtp_username self) && truthy (smtp_password self) then
    _send_with_smtp recipient subject body
  else ((false, "No email service available"), []).
(** [EmailService.test_connection] *)
Definition test_connection : bool * string :=
  if negb is_configured then (false, "Email service not configured")
  else if SENDGRID_AVAILABLE N && truthy (sendgrid_api_key self) then
    (true, "SendGrid configured")
  else if truthy (smtp_username self) && truthy (smtp_password self) then
    (true, "SMTP configured")
  else (false, "No email service available").
End Service.

End Email.

(** ** The rest of [cv_parser.py] *)

(** The dictionary [get_cv_summary] returns: the one with the single
    key [error], or the one with the four keys of a loaded document. *)
Inductive Summary : Type :=
| SummaryError (error : string)
| SummaryOk (sections : list string) (entities : list (string * list string))
            (word_count : nat) (sections_preview : list (string * string)).

(** [v[:100] + "..." if len(v) > 100 else v] *)
Definition preview (v : string) : string :=
  if (100 <? String.length v)%nat then Py.take 100 v ++ "..." else v.

(** [CVParser.get_cv_summary] *)
Definition get_cv_summary (L : Libs) : M Summary :=
  loaded <- gets is_loaded ;;
  if negb loaded then ret (SummaryError "No CV loaded")
  else
    sections <- gets cv_sections ;;
    entities <- gets cv_entities ;;
    content <- gets cv_content ;;
    ret (SummaryOk (map fst sections) entities
                   (List.length (word_tokenize L content))
                   (map (fun kv => (fst kv, preview (snd kv))) sections)).

(** [CVParser.is_cv_loaded] *)
Definition is_cv_loaded : M bool := gets is_loaded.

(** ** [main.py] *)

Module Main.

(** What an endpoint gives back: the body of a 200 response, or the
    [HTTPException] that leaves the handler. *)
Inductive Http (A : Type) : Type :=
| Http200 (body : A)
| HTTPException (status_code : nat) (detail : string).
Arguments Http200 {A} body.
Arguments HTTPException {A} status_code detail.

(** What the endpoints use and the module does not define:
    [http_str c d] is [str(HTTPException(c, d))]; [save_upload path] is
    the [with open(path, "wb")] block that stores the uploaded bytes;
    [os_unlink] is [os.unlink]. *)
Record Host : Type := mkHost {
  http_str : nat -> string -> string;
  save_upload : string -> Result unit;
  os_unlink : string -> Result unit
}.

Section Endpoints.
Variable L : Libs.
Variable H : Host.

(** [raise HTTPException(...)] inside the [try] of an endpoint. *)
Definition abort {A} (status_code : nat) (detail : string) : M (Http A) :=
  ret (HTTPException status_code detail).

(** [try: m  except Exception as e: raise HTTPException(500, prefix + str(e))];
    [HTTPException] is an [Exception], so the handler takes it too. *)
Definition or_500 {A} (prefix : string) (m : M (Http A)) : M (Http A) :=
  fun self =>
    match m self with
    | (Ok (Http200 body), self') => (Ok (Http200 body), self')
    | (Ok (HTTPException c d), self') =>
        (Ok (HTTPException 500 (prefix ++ http_str H c d)), self')
    | (Raise e, self') => (Ok (HTTPException 500 (prefix ++ exn_str e)), self')
    end.

(** [upload_cv]: the body is the pair (message, filename). *)
Definition upload_cv (filename : string) : M (Http (string * string)) :=
  or_500 "Error processing CV: "
    (let temp_path := "temp_" ++ filename in
     lift (save_upload H temp_path) ;;
     success <- load_cv L temp_path ;;
     lift (os_unlink H temp_path) ;;
     if success then ret (Http200 ("CV uploaded and parsed successfully", filename))
     else abort 400 "Failed to parse CV file").

(** [chat_about_cv]: the body is (answer, confidence, source_sections). *)
Definition chat_about_cv (question : string) : M (Http Answer) :=
  or_500 "Error processing question: "
    (loaded <- is_cv_loaded ;;
     if negb loaded then abort 400 "No CV loaded. Please upload a CV first."
     else
       a <- answer_question L question ;;
       ret (Http200 a)).

(** [get_cv_info] *)
Definition get_cv_info : M (Http Summary) :=
  or_500 "Error getting CV info: "
    (loaded <- is_cv_loaded ;;
     if negb loaded then abort 400 "No CV loaded"
     else
       summary <- get_cv_summary L ;;
       ret (Http200 summary)).

(** [send_email]: the body is (success, message); beside it, the
    transport calls made. *)
Definition send_email (N : Email.Network) (email_service : Email.EmailService)
           (recipient subject body : string) : Http (bool * string) * list Email.Event :=
  let (r, events) := Email.send_email N email_service recipient subject body in
  (Http200 r, events).

(** [root]: the body is (status, cv_loaded, email_configured). *)
Definition root (N : Email.Network) (email_service : Email.EmailService)
  : M (string * bool * bool) :=
  loaded <- is_cv_loaded ;;
  ret ("running", loaded, Email.is_configured N email_service).
End Endpoints.

End Main.

(** ** Vocabulary of the statements *)

(** [c] occurs in [s]. *)
Fixpoint has_char (c : ascii) (s : string) : bool :=
  match s with
  | EmptyString => false
  | String a s' => Ascii.eqb a c || has_char c s'
  end.

(** Every character of [s] is white space. *)
Fixpoint all_space (s : string) : bool :=
  match s with
  | EmptyString => true
  | String c s' => Py.is_space c && all_space s'
  end.

(** The extensions [load_cv] has a branch for. *)
Definition supported (file_extension : string) : bool :=
  Py.mem file_extension [".pdf"; ".docx"; ".doc"; ".txt"].

(** A stripped line is a section header when the inner loop of
    [_parse_cv_sections] leaves by [break]. *)
Definition is_header (line : string) : bool :=
  match find_header section_patterns line with
  | Some _ => true
  | None => false
  end.

(** The stripped lines of a text, blank ones included. *)
Definition stripped_lines (content : string) : list string :=
  map Py.strip (Py.split Py.nl content).

(** The lines the segmentation appends to some body: non-blank and not
    a header. *)
Definition body_lines (content : string) : list string :=
  filter (fun line => Py.truthy line && negb (is_header line)) (stripped_lines content).

(** Number of lines held by a [sections] dictionary. *)
Definition total (sections : list (string * list string)) : nat :=
  fold_right (fun kv n => List.length (snd kv) + n) 0 sections.

(** Every line held by the dictionary is a non-header without a line feed. *)
Definition clean (d : list (string * list string)) : Prop :=
  forall k v l, In (k, v) d -> In l v ->
    is_header l = false /\ has_char Py.nl l = false.

(** The [sections] dictionary with only the [other] list filled. *)
Definition only_other (v : list string) : list (string * list string) :=
  [ ("personal_info", []); ("summary", []); ("experience", []); ("education", []);
    ("skills", []); ("clubs", []); ("projects", []); ("achievements", []);
    ("other", v) ].

(** A method that leaves every attribute of [self] as it found it. *)
Definition read_only {A} (m : M A) : Prop :=
  forall self, snd (m self) = self.

(** The answer the general search gives from section [name]. *)
Definition section_answer (L : Libs) (question_words : list string)
           (name content : string) : Answer :=
  (Py.take 300 content ++ "...", score L question_words content, [name]).

(** The score as the specification words it: both token collections are
    sets, and the denominator is the size of the question's set. *)
Definition spec_score (L : Libs) (question content : string) : Q :=
  let qs := nodup string_dec (content_words L question) in
  let cs := nodup string_dec (content_words L content) in
  ratio (List.length (filter (fun w => Py.mem w cs) qs)) (List.length qs).

(** What the loop holds after the sections [seen]: nothing yet and no
    positive score met, or the answer from a section met whose score no
    section met exceeds. *)
Definition best_so_far (L : Libs) (qw : list string) (seen : list (string * string))
           (acc : Answer) : Prop :=
  (acc = ("", 0%Q, []) /\
   forall it, In it seen -> Py.truthy (snd it) = true -> (score L qw (snd it) <= 0)%Q) \/
  (exists name content,
      In (name, content) seen /\ Py.truthy content = true /\
      acc = section_answer L qw name content /\
      (0 < score L qw content)%Q /\
      forall it, In it seen -> Py.truthy (snd it) = true ->
                 (score L qw (snd it) <= score L qw content)%Q).

(** The body of [_general_search] after the loop. *)
Definition pick (acc : Answer) : Answer :=
  if Qgtb (snd (fst acc)) 0.1%Q then acc else not_found.

(** A method that returns, leaves [self] alone, and gives a confidence
    between 0 and 1. *)
Definition conf_ok (m : M Answer) : Prop :=
  forall self, exists a c src,
    m self = (Ok (a, c, src), self) /\ (0 <= c <= 1)%Q.

(** The keys of the local [sections], in the order of the literal. *)
Definition section_names : list string :=
  [ "personal_info"; "summary"; "experience"; "education"; "skills"; "clubs";
    "projects"; "achievements"; "other" ].

(** The body lines of a text, each with the section it belongs to: the
    category of the last header line before it, [cur] when there is none. *)
Fixpoint tagged (cur : string) (lines : list string) : list (string * string) :=
  match lines with
  | [] => []
  | raw :: rest =>
      let line := Py.strip raw in
      if negb (Py.truthy line) then tagged cur rest
      else
        match find_header section_patterns line with
        | Some section => tagged section rest
        | None => (cur, line) :: tagged cur rest
        end
  end.

(** The lines tagged with section [k], in order. *)
Definition lines_of (k : string) (t : list (string * string)) : list string :=
  map snd (filter (fun p => String.eqb (fst p) k) t).


(** The parser a load leaves when the pipeline raises: the new text and
    its sections beside the entities and the flag of before. *)
Definition text_replaced (content : string) (self : CVParser) : CVParser :=
  {| cv_content := content;
     cv_sections := parse_sections content;
     cv_entities := cv_entities self;
     is_loaded := is_loaded self |}.


(** The parser after a sequence of [load_cv] calls. *)
Definition after_loads (L : Libs) (paths : list string) (self : CVParser) : CVParser :=
  fold_left (fun s file_path => snd (load_cv L file_path s)) paths self.

(** The texts of the entities with one of the given labels, in order. *)
Definition labelled (labels : list string) (ents : list (string * string)) : list string :=
  map snd (filter (fun ent => Py.mem (fst ent) labels) ents).

(** [''.join(t + '\n' for t in texts)] *)
Definition lines_text (texts : list string) : string :=
  fold_right (fun t acc => t ++ Py.NL ++ acc) "" texts.

(** The texts the pdfplumber loop keeps: those that are neither [None]
    nor empty. *)
Definition page_texts (texts : list (option string)) : list string :=
  flat_map (fun text => match text with
                        | Some t => if Py.truthy t then [t] else []
                        | None => []
                        end) texts.


(** A transport call of the SMTP client. *)
Definition is_smtp (ev : Email.Event) : bool :=
  match ev with Email.SendGridSend _ _ _ _ => false | _ => true end.

(** ** Concrete collaborators for the scenarios *)

(** The three-line document of the specification's scenarios. *)
Definition scenario_doc : string :=
  "Experience" ++ Py.NL ++ "Engineer | Acme Corp | 2020-2022" ++ Py.NL ++ "Senior Engineer".

Definition scenario_experience : string :=
  "Engineer | Acme Corp | 2020-2022" ++ Py.NL ++ "Senior Engineer".

Definition no_file {A} : Result A := Raise (LibraryError "No such file or directory").

(** A file system holding one text file [cv.txt] with the given text, an
    entity recogniser that answers [ents], tokens cut at spaces, and a
    few English stop words. *)
Definition one_file (text : string) (ents : list (string * string)) : Libs :=
  {| pdfplumber_open := fun _ => no_file;
     pypdf2_open := fun _ => no_file;
     docx_paragraphs := fun _ => no_file;
     read_text := fun p => if String.eqb p "cv.txt" then Ok text else no_file;
     nlp := fun _ => Ok ents;
     word_tokenize := fun s => filter Py.truthy (Py.split " " s);
     stop_words := ["a"; "an"; "the"; "is"; "are"; "of"; "or"; "and"; "me"; "about"];
     set_iter := nodup string_dec |}.

(** The same file system with a pipeline that refuses every text. *)
Definition refusing (text : string) : Libs :=
  {| pdfplumber_open := fun _ => no_file;
     pypdf2_open := fun _ => no_file;
     docx_paragraphs := fun _ => no_file;
     read_text := fun p => if String.eqb p "cv.txt" then Ok text else no_file;
     nlp := fun _ => Raise (ValueError "[E088] Text exceeds maximum length");
     word_tokenize := fun s => filter Py.truthy (Py.split " " s);
     stop_words := ["a"; "an"; "the"; "is"; "are"; "of"; "or"; "and"; "me"; "about"];
     set_iter := nodup string_dec |}.

(** Two text files, [cv.txt] with the scenario document and [big.txt]
    with a text the pipeline refuses. *)
Definition picky : Libs :=
  {| pdfplumber_open := fun _ => no_file;
     pypdf2_open := fun _ => no_file;
     docx_paragraphs := fun _ => no_file;
     read_text := fun p => if String.eqb p "cv.txt" then Ok scenario_doc
                           else if String.eqb p "big.txt" then Ok "Jane Doe"
                           else no_file;
     nlp := fun text => if String.eqb text "Jane Doe"
                        then Raise (ValueError "[E088] Text exceeds maximum length")
                        else Ok [];
     word_tokenize := fun s => filter Py.truthy (Py.split " " s);
     stop_words := [];
     set_iter := nodup string_dec |}.

(** A two-line document without a header line. *)
Definition plain_doc : string := "Jane Doe" ++ Py.NL ++ "Builds things".

(** A parser that already holds a document. *)
Definition loaded_parser : CVParser :=
  {| cv_content := "Skills" ++ Py.NL ++ "Python developer";
     cv_sections := [("skills", "Python developer")];
     cv_entities := [("persons", []); ("organizations", []); ("locations", []);
                     ("dates", []); ("technologies", ["python"])];
     is_loaded := true |}.

(** Two sections with the same score for the question "python". *)
Definition tie_parser : CVParser :=
  {| cv_content := "";
     cv_sections := [("summary", "Python developer"); ("other", "python fan")];
     cv_entities := [];
     is_loaded := true |}.

(** An e-mail service with nothing set in the environment. *)
Definition bare_service : Email.EmailService :=
  {| Email.sendgrid_api_key := None;
     Email.smtp_server := "smtp.gmail.com";
     Email.smtp_port := 587;
     Email.smtp_username := None;
     Email.smtp_password := None;
     Email.from_email := "noreply@example.com" |}.

(** A reader whose second page cannot be read by pdfplumber. *)
Definition torn_pdf : Libs :=
  {| pdfplumber_open := fun _ => Ok [Ok (Some "Page one");
                                      Raise (LibraryError "bad page")];
     pypdf2_open := fun _ => Ok [Ok "Page one"; Ok "Page two"];
     docx_paragraphs := fun _ => no_file;
     read_text := fun _ => no_file;
     nlp := fun _ => Ok [];
     word_tokenize := fun s => filter Py.truthy (Py.split " " s);
     stop_words := [];
     set_iter := nodup string_dec |}.

(** A service with both an API key and SMTP credentials. *)
Definition full_service : Email.EmailService :=
  {| Email.sendgrid_api_key := Some "SG.key";
     Email.smtp_server := "smtp.gmail.com";
     Email.smtp_port := 587;
     Email.smtp_username := Some "me@example.com";
     Email.smtp_password := Some "secret";
     Email.from_email := "noreply@example.com" |}.


(** A network on which [Mail(...)] cannot be built. *)
Definition rejecting_network : Email.Network :=
  {| Email.SENDGRID_AVAILABLE := true;
     Email.sg_mail := fun _ _ _ _ => Raise (ValueError "invalid address");
     Email.sg_client := fun _ => Ok tt;
     Email.sg_send := fun _ _ _ _ => Ok 202;
     Email.smtp_connect := fun _ _ => Ok tt;
     Email.smtp_starttls := Ok tt;
     Email.smtp_login := fun _ _ => Email.LoginOk;
     Email.smtp_send_message := fun _ => Ok tt;
     Email.smtp_quit := Ok tt |}.


(** A network on which every call succeeds. *)
Definition open_network : Email.Network :=
  {| Email.SENDGRID_AVAILABLE := true;
     Email.sg_mail := fun _ _ _ _ => Ok tt;
     Email.sg_client := fun _ => Ok tt;
     Email.sg_send := fun _ _ _ _ => Ok 202;
     Email.smtp_connect := fun _ _ => Ok tt;
     Email.smtp_starttls := Ok tt;
     Email.smtp_login := fun _ _ => Email.LoginOk;
     Email.smtp_send_message := fun _ => Ok tt;
     Email.smtp_quit := Ok tt |}.

(** * Properties *)

(** ** Strings *)

Example lower_ex : Py.lower "What IS?" = "what is?".
Proof. reflexivity. Qed.

Example strip_ex : Py.strip "  a b  " = "a b".
Proof. reflexivity. Qed.

Example split_ex : Py.split "," "a,,b," = ["a"; ""; "b"; ""].
Proof. reflexivity. Qed.

Example suffix_ex1 : suffix "uploads/My.CV.PDF" = ".PDF".
Proof. reflexivity. Qed.

Example suffix_ex2 : suffix "dir/.bashrc" = "".
Proof. reflexivity. Qed.

Example company_regex_ex :
  Re.search company_regex "Engineer | Acme Corp | 2020-2022" = Some (Some "Acme Corp ").
Proof. vm_compute. reflexivity. Qed.

Example company_regex_blank : Re.search company_regex "a |  | b" = Some (Some " ").
Proof. vm_compute. reflexivity. Qed.

Lemma truthy_false s : Py.truthy s = false -> s = "".
Proof. destruct s; simpl; congruence. Qed.

Lemma truthy_true s : Py.truthy s = true -> s <> "".
Proof. destruct s; simpl; congruence. Qed.

Lemma split_not_nil sep s : Py.split sep s <> [].
Proof.
  destruct s as [|c s]; simpl; [discriminate|].
  destruct (Ascii.eqb c sep); [discriminate|].
  destruct (Py.split sep s); discriminate.
Qed.

Lemma split_no_sep sep s :
  forall l, In l (Py.split sep s) -> has_char sep l = false.
Proof.
  induction s as [|c s IH]; simpl; intros l Hl.
  - destruct Hl as [<-|[]]. reflexivity.
  - destruct (Ascii.eqb c sep) eqn:E.
    + destruct Hl as [<-|Hl]; [reflexivity | auto].
    + destruct (Py.split sep s) as [|h t] eqn:Es.
      * destruct Hl as [<-|[]]. simpl. now rewrite E.
      * destruct Hl as [<-|Hl].
        -- simpl. rewrite E. apply IH. now left.
        -- apply IH. now right.
Qed.

Lemma lstrip_no_char c s : has_char c s = false -> has_char c (Py.lstrip s) = false.
Proof.
  induction s as [|a s IH]; simpl; intros H; [reflexivity|].
  apply orb_false_iff in H as [Ha Hs].
  destruct (Py.is_space a); [auto|]. simpl. now rewrite Ha, Hs.
Qed.

Lemma rstrip_no_char c s : has_char c s = false -> has_char c (Py.rstrip s) = false.
Proof.
  induction s as [|a s IH]; simpl; intros H; [reflexivity|].
  apply orb_false_iff in H as [Ha Hs]. specialize (IH Hs).
  destruct (Py.rstrip s) as [|b r].
  - destruct (Py.is_space a); simpl; [reflexivity | now rewrite Ha].
  - simpl in *. now rewrite Ha, IH.
Qed.

Lemma strip_no_char c s : has_char c s = false -> has_char c (Py.strip s) = false.
Proof. intros H. unfold Py.strip. now apply rstrip_no_char, lstrip_no_char. Qed.

Lemma split_single sep s : has_char sep s = false -> Py.split sep s = [s].
Proof.
  induction s as [|a s IH]; simpl; intros H; [reflexivity|].
  apply orb_false_iff in H as [Ha Hs].
  rewrite Ha, (IH Hs). reflexivity.
Qed.

Lemma split_app sep a rest :
  has_char sep a = false ->
  Py.split sep (a ++ String sep rest) = a :: Py.split sep rest.
Proof.
  induction a as [|c a IH]; simpl; intros H.
  - now rewrite Ascii.eqb_refl.
  - apply orb_false_iff in H as [Hc Ha].
    rewrite Hc, (IH Ha). reflexivity.
Qed.

(** Splitting a joined body gives back the lines that were joined. *)
Lemma split_join v :
  v <> [] -> (forall l, In l v -> has_char Py.nl l = false) ->
  Py.split Py.nl (Py.join Py.NL v) = v.
Proof.
  induction v as [|a v IH]; intros Hne Hv; [congruence|].
  destruct v as [|b v].
  - simpl. apply split_single. apply Hv. now left.
  - change (Py.join Py.NL (a :: b :: v))
      with (a ++ String Py.nl (Py.join Py.NL (b :: v))).
    rewrite split_app by (apply Hv; now left).
    f_equal. apply IH; [discriminate|]. intros l Hl. apply Hv. now right.
Qed.

(** A text strips to nothing exactly when all its characters are spaces. *)
Lemma rstrip_blank s : Py.rstrip s = "" <-> all_space s = true.
Proof.
  induction s as [|c s IH]; simpl; [tauto|].
  destruct (Py.rstrip s) as [|b r].
  - destruct (Py.is_space c); simpl.
    + split; intros _; [now apply IH | reflexivity].
    + split; discriminate.
  - split; [discriminate|]. intros H. apply andb_true_iff in H as [_ H].
    apply IH in H. discriminate.
Qed.

Lemma lstrip_all_space s : all_space (Py.lstrip s) = all_space s.
Proof.
  induction s as [|c s IH]; simpl; [reflexivity|].
  destruct (Py.is_space c) eqn:E; simpl; [exact IH | now rewrite E].
Qed.

Lemma strip_blank s : Py.strip s = "" <-> all_space s = true.
Proof. unfold Py.strip. rewrite rstrip_blank, lstrip_all_space. tauto. Qed.

Lemma all_space_lines s :
  (forall l, In l (Py.split Py.nl s) -> all_space l = true) -> all_space s = true.
Proof.
  induction s as [|c s IH]; simpl; intros H; [reflexivity|].
  destruct (Ascii.eqb c Py.nl) eqn:E.
  - apply Ascii.eqb_eq in E. subst c. simpl. apply IH. intros l Hl. apply H. now right.
  - destruct (Py.split Py.nl s) as [|h t] eqn:Es.
    + now destruct (split_not_nil Py.nl s).
    + assert (Hc : all_space (String c h) = true) by (apply H; now left).
      simpl in Hc. apply andb_true_iff in Hc as [Hc Hh]. rewrite Hc. simpl.
      apply IH. intros l [<-|Hl]; [exact Hh | apply H; now right].
Qed.

(** A text that does not strip to nothing has a non-blank line. *)
Lemma nonblank_line content :
  Py.truthy (Py.strip content) = true ->
  exists line, In line (stripped_lines content) /\ Py.truthy line = true.
Proof.
  intros H. unfold stripped_lines.
  destruct (existsb (fun l => negb (all_space l)) (Py.split Py.nl content)) eqn:Ex.
  - apply existsb_exists in Ex as (raw & Hin & Hsp).
    exists (Py.strip raw). split; [now apply in_map|].
    destruct (Py.strip raw) eqn:Es; [|reflexivity].
    apply strip_blank in Es. rewrite Es in Hsp. discriminate.
  - exfalso. apply truthy_true in H. apply H. apply strip_blank.
    apply all_space_lines. intros l Hl.
    destruct (all_space l) eqn:El; [reflexivity|].
    assert (existsb (fun l => negb (all_space l)) (Py.split Py.nl content) = true)
      by (apply existsb_exists; exists l; split; [exact Hl | now rewrite El]).
    congruence.
Qed.

(** ** Section segmentation *)

Lemma append_line_keys section line d :
  map fst (append_line section line d) = map fst d.
Proof.
  induction d as [|[k v] d IH]; simpl; [reflexivity|].
  destruct (String.eqb k section); simpl; [reflexivity | now rewrite IH].
Qed.

Lemma total_append section line d :
  In section (map fst d) -> total (append_line section line d) = S (total d).
Proof.
  induction d as [|[k v] d IH]; simpl; intros H; [contradiction|].
  destruct (String.eqb k section) eqn:E; simpl.
  - rewrite length_app. simpl. lia.
  - destruct H as [H|H]; [apply String.eqb_neq in E; congruence|].
    rewrite (IH H). lia.
Qed.

Lemma append_line_in section line d k v :
  In (k, v) (append_line section line d) ->
  exists v0, In (k, v0) d /\ (v = v0 \/ v = (v0 ++ [line])%list).
Proof.
  induction d as [|[k' v'] d IH]; simpl; [contradiction|].
  destruct (String.eqb k' section).
  - intros [H|H].
    + inversion H; subst. exists v'. split; [now left | now right].
    + exists v. split; [now right | now left].
  - intros [H|H].
    + inversion H; subst. exists v. split; [now left | now left].
    + destruct (IH H) as (v0 & Hin & Hv). exists v0. split; [now right | exact Hv].
Qed.

Lemma find_header_key patterns line section :
  find_header patterns line = Some section -> In section (map fst patterns).
Proof.
  induction patterns as [|[s p] rest IH]; simpl; [discriminate|].
  destruct (header_test p line).
  - intros H. inversion H. now left.
  - intros H. right. now apply IH.
Qed.

(** The inner loop stops at the first pattern, in dictionary order,
    whose test succeeds. *)
Lemma find_header_first patterns line :
  (exists section pattern,
      In (section, pattern) patterns /\ header_test pattern line = true) ->
  exists pre section pattern post,
    patterns = (pre ++ (section, pattern) :: post)%list /\
    find_header patterns line = Some section /\
    header_test pattern line = true /\
    (forall sp, In sp pre -> header_test (snd sp) line = false).
Proof.
  induction patterns as [|[s p] rest IH]; intros (sec & pat & Hin & Ht).
  - destruct Hin.
  - simpl. destruct (header_test p line) eqn:E.
    + exists [], s, p, rest. repeat split; auto. intros sp [].
    + destruct Hin as [Hin|Hin]; [inversion Hin; subst; congruence|].
      destruct IH as (pre & s' & p' & post & -> & Hf & Ht' & Hpre).
      { now exists sec, pat. }
      exists ((s, p) :: pre), s', p', post. repeat split; auto.
      intros sp [<-|Hsp]; [exact E | now apply Hpre].
Qed.

Lemma find_header_none patterns line :
  find_header patterns line = None ->
  forall section pattern, In (section, pattern) patterns -> header_test pattern line = false.
Proof.
  induction patterns as [|[s p] rest IH]; simpl; intros H sec pat Hin; [contradiction|].
  destruct (header_test p line) eqn:E; [discriminate|].
  destruct Hin as [Hin|Hin]; [inversion Hin; subst; exact E | eapply IH; eauto].
Qed.

Lemma segment_step_blank st raw :
  Py.truthy (Py.strip raw) = false -> segment_step st raw = st.
Proof. intros H. unfold segment_step. now rewrite H. Qed.

Lemma segment_step_header st raw section :
  Py.truthy (Py.strip raw) = true ->
  find_header section_patterns (Py.strip raw) = Some section ->
  segment_step st raw = (section, snd st).
Proof. intros H1 H2. unfold segment_step. now rewrite H1, H2. Qed.

Lemma segment_step_body st raw :
  Py.truthy (Py.strip raw) = true ->
  find_header section_patterns (Py.strip raw) = None ->
  segment_step st raw = (fst st, append_line (fst st) (Py.strip raw) (snd st)).
Proof. intros H1 H2. unfold segment_step. now rewrite H1, H2. Qed.

(** The three ways one turn of the outer loop can go. *)
Ltac step_cases raw :=
  let Ht := fresh "Ht" in
  let Hh := fresh "Hh" in
  let sec := fresh "sec" in
  destruct (Py.truthy (Py.strip raw)) eqn:Ht;
  [ destruct (find_header section_patterns (Py.strip raw)) as [sec|] eqn:Hh;
    [ rewrite (segment_step_header _ raw sec Ht Hh)
    | rewrite (segment_step_body _ raw Ht Hh) ]
  | rewrite (segment_step_blank _ raw Ht) ].

(** The loop keeps the nine keys, keeps [current_section] among them,
    and appends exactly the non-blank lines that are not headers. *)
Lemma segment_total lines :
  forall cur d,
    In cur (map fst d) ->
    incl (map fst section_patterns) (map fst d) ->
    total (snd (fold_left segment_step lines (cur, d))) =
    total d +
    List.length (filter (fun line => Py.truthy line && negb (is_header line))
                        (map Py.strip lines)).
Proof.
  induction lines as [|raw lines IH]; intros cur d Hcur Hkeys; simpl; [lia|].
  unfold is_header at 1.
  step_cases raw; simpl.
  - rewrite IH; auto. apply Hkeys. eapply find_header_key; eauto.
  - rewrite IH; rewrite ?append_line_keys; auto.
    rewrite total_append by exact Hcur. lia.
  - rewrite IH; auto.
Qed.

Lemma joined_nil d : joined_sections d = [] <-> total d = 0.
Proof.
  unfold joined_sections.
  induction d as [|[k v] d IH]; simpl; [tauto|].
  destruct v as [|l v]; simpl.
  - exact IH.
  - split; [discriminate | lia].
Qed.

Lemma joined_in d name body :
  In (name, body) (joined_sections d) ->
  exists v, In (name, v) d /\ v <> [] /\ body = Py.join Py.NL v.
Proof.
  unfold joined_sections. intros H.
  apply in_map_iff in H as ([k v] & Heq & Hin). simpl in Heq.
  apply filter_In in Hin as [Hin Hne]. simpl in Hne.
  inversion Heq; subst. exists v. repeat split; auto.
  destruct v; [discriminate | discriminate].
Qed.

Lemma append_line_clean section line d :
  clean d -> is_header line = false -> has_char Py.nl line = false ->
  clean (append_line section line d).
Proof.
  intros Hd Hh Hn k v l Hin Hl.
  destruct (append_line_in _ _ _ _ _ Hin) as (v0 & Hin0 & [->| ->]).
  - eapply Hd; eauto.
  - apply in_app_or in Hl as [Hl|[<-|[]]]; [eapply Hd; eauto | auto].
Qed.

Lemma segment_clean lines :
  forall cur d,
    (forall raw, In raw lines -> has_char Py.nl raw = false) ->
    clean d -> clean (snd (fold_left segment_step lines (cur, d))).
Proof.
  induction lines as [|raw lines IH]; intros cur d Hl Hd; simpl; [exact Hd|].
  assert (Hl' : forall r, In r lines -> has_char Py.nl r = false)
    by (intros r Hr; apply Hl; now right).
  step_cases raw; simpl; apply IH; auto.
  apply append_line_clean; auto.
  - unfold is_header. now rewrite Hh.
  - apply strip_no_char. apply Hl. now left.
Qed.

Lemma clean_empty : clean empty_sections.
Proof.
  intros k v l Hin Hl. simpl in Hin.
  repeat (destruct Hin as [Hin|Hin]; [inversion Hin; subst; destruct Hl|]).
  destruct Hin.
Qed.

(** Without a header line the loop stays in [other] and fills only it. *)
Lemma segment_no_header lines :
  forall v,
    (forall raw, In raw lines -> is_header (Py.strip raw) = false) ->
    fold_left segment_step lines ("other", only_other v) =
    ("other", only_other (v ++ filter Py.truthy (map Py.strip lines))%list).
Proof.
  induction lines as [|raw lines IH]; intros v H; simpl.
  - now rewrite app_nil_r.
  - assert (Hr : is_header (Py.strip raw) = false) by (apply H; now left).
    assert (H' : forall r, In r lines -> is_header (Py.strip r) = false)
      by (intros r Hin; apply H; now right).
    unfold is_header in Hr.
    step_cases raw; try discriminate; cbn [fst snd].
    + change (append_line "other" (Py.strip raw) (only_other v))
        with (only_other (v ++ [Py.strip raw])%list).
      rewrite IH by exact H'. now rewrite <- app_assoc.
    + now apply IH.
Qed.

Lemma header_test_is_header section pattern line :
  In (section, pattern) section_patterns ->
  header_test pattern line = true -> is_header line = true.
Proof.
  intros Hin Ht. unfold is_header.
  destruct (find_header section_patterns line) eqn:E; [reflexivity|].
  rewrite (find_header_none _ _ E _ _ Hin) in Ht. discriminate.
Qed.

(** No line of a section body is a header line. *)
Lemma body_lines_not_headers content name body line :
  In (name, body) (parse_sections content) ->
  In line (Py.split Py.nl body) -> is_header line = false.
Proof.
  unfold parse_sections, segment_loop. intros Hin Hl.
  apply joined_in in Hin as (v & Hv & Hne & ->).
  assert (Hc : clean (snd (fold_left segment_step (Py.split Py.nl content)
                                     ("other", empty_sections)))).
  { apply segment_clean; [apply split_no_sep | apply clean_empty]. }
  rewrite split_join in Hl; auto.
  - eapply Hc; eauto.
  - intros l Hin. eapply Hc; eauto.
Qed.

(** C3. In [_parse_cv_sections], a non-blank line whose lower-cased text
    matches some header pattern and which is shorter than 50 characters
    sets [current_section] to the first category, in the order
    personal_info, summary, experience, education, skills, clubs,
    projects, achievements, whose pattern matches; the dictionary of
    bodies is left as it was; and that line is a line of no section body
    of any parsed text. *)
Theorem header_line_switches_section (cur : string)
        (d : list (string * list string)) (raw : string) :
  Py.truthy (Py.strip raw) = true ->
  (exists section pattern,
      In (section, pattern) section_patterns /\
      Re.matches pattern (Py.lower (Py.strip raw)) = true) ->
  (String.length (Py.strip raw) < 50)%nat ->
  map fst section_patterns =
    ["personal_info"; "summary"; "experience"; "education"; "skills"; "clubs";
     "projects"; "achievements"] /\
  (exists pre section pattern post,
      section_patterns = (pre ++ (section, pattern) :: post)%list /\
      Re.matches pattern (Py.lower (Py.strip raw)) = true /\
      (forall sp, In sp pre -> Re.matches (snd sp) (Py.lower (Py.strip raw)) = false) /\
      segment_step (cur, d) raw = (section, d)) /\
  (forall content name body,
      In (name, body) (parse_sections content) ->
      ~ In (Py.strip raw) (Py.split Py.nl body)).
Proof.
  intros Hnb (sec & pat & Hin & Hm) Hlen.
  assert (Hlt : (String.length (Py.strip raw) <? 50)%nat = true)
    by now apply Nat.ltb_lt.
  assert (Ht : header_test pat (Py.strip raw) = true)
    by (unfold header_test; now rewrite Hm, Hlt).
  split; [reflexivity|]. split.
  - destruct (find_header_first section_patterns (Py.strip raw))
      as (pre & s & p & post & Heq & Hf & Hp & Hpre).
    { now exists sec, pat. }
    exists pre, s, p, post. repeat split.
    + exact Heq.
    + unfold header_test in Hp. now apply andb_true_iff in Hp as [Hp _].
    + intros sp Hsp. specialize (Hpre sp Hsp). unfold header_test in Hpre.
      rewrite Hlt, andb_true_r in Hpre. exact Hpre.
    + now rewrite (segment_step_header _ raw s Hnb Hf).
  - intros content name body Hbody Hline.
    pose proof (header_test_is_header _ _ _ Hin Ht) as Hh.
    rewrite (body_lines_not_headers _ _ _ _ Hbody Hline) in Hh.
    discriminate.
Qed.

Lemma header_line_switches_section_witness :
  segment_step ("other", empty_sections) "  Professional Summary " =
    ("summary", empty_sections) /\
  ~ In "Professional Summary"
      (Py.split Py.nl (Py.get (parse_sections
         ("Jane Doe" ++ Py.NL ++ "  Professional Summary " ++ Py.NL ++ "Builds things"))
         "other" "")).
Proof.
  destruct (header_line_switches_section "other" empty_sections
              "  Professional Summary ") as (_ & Hstep & Hbody).
  - reflexivity.
  - exists "summary", (Re.Group (Re.words ["summary"; "profile"; "objective"; "about"])).
    split; [simpl; tauto | vm_compute; reflexivity].
  - apply Nat.ltb_lt. reflexivity.
  - split.
    + vm_compute. reflexivity.
    + apply (Hbody ("Jane Doe" ++ Py.NL ++ "  Professional Summary " ++ Py.NL
                      ++ "Builds things") "other").
      vm_compute. right. left. reflexivity.
Defined.

(** ** Loading *)

Lemma unsupported_raises L file_path :
  supported (Py.lower (suffix file_path)) = false ->
  read_content L file_path =
  Raise (ValueError ("Unsupported file format: " ++ Py.lower (suffix file_path))).
Proof.
  unfold supported, read_content, Py.mem. cbn [existsb].
  intros H.
  destruct (String.eqb (Py.lower (suffix file_path)) ".pdf"); [discriminate|].
  destruct (String.eqb (Py.lower (suffix file_path)) ".docx"); [discriminate|].
  destruct (String.eqb (Py.lower (suffix file_path)) ".doc"); [discriminate|].
  destruct (String.eqb (Py.lower (suffix file_path)) ".txt"); [discriminate|].
  reflexivity.
Qed.

Lemma load_cv_raise L file_path self e :
  read_content L file_path = Raise e -> load_cv L file_path self = (Ok false, self).
Proof.
  intros H. unfold load_cv, try_except, bind, lift. now rewrite H.
Qed.

Lemma load_cv_blank L file_path self content :
  read_content L file_path = Ok content ->
  Py.truthy (Py.strip content) = false ->
  load_cv L file_path self = (Ok false, self).
Proof.
  intros H Hb. unfold load_cv, try_except, bind, lift. now rewrite H, Hb.
Qed.

(** Run the body of [load_cv] as far as the next library call. *)
Ltac run_load :=
  cbv beta iota zeta delta
    [load_cv try_except bind lift _parse_cv_sections _extract_entities
     set_cv_content set_cv_sections set_cv_entities set_is_loaded gets ret
     cv_content cv_sections cv_entities is_loaded].

(** The state a successful load leaves. *)
Lemma load_cv_ok L file_path self content ents :
  read_content L file_path = Ok content ->
  Py.truthy (Py.strip content) = true ->
  nlp L content = Ok ents ->
  load_cv L file_path self =
  (Ok true,
   {| cv_content := content;
      cv_sections := parse_sections content;
      cv_entities := extract ents content (parse_sections content);
      is_loaded := true |}).
Proof.
  intros H Hb Hn.
  run_load. rewrite H. run_load. rewrite Hb. run_load. rewrite Hn. reflexivity.
Qed.

(** The state a load leaves when the pipeline raises: the text and its
    sections are already assigned, the entities and [is_loaded] are not. *)
Lemma load_cv_nlp_raise L file_path self content e :
  read_content L file_path = Ok content ->
  Py.truthy (Py.strip content) = true ->
  nlp L content = Raise e ->
  load_cv L file_path self =
  (Ok false,
   {| cv_content := content;
      cv_sections := parse_sections content;
      cv_entities := cv_entities self;
      is_loaded := is_loaded self |}).
Proof.
  intros H Hb Hn.
  run_load. rewrite H. run_load. rewrite Hb. run_load. rewrite Hn. reflexivity.
Qed.

(** C1. A call of [load_cv] that fails because the extension has no
    branch, because the extraction raises, or because the extracted
    text is empty or white space only returns [False] and leaves
    [cv_content], [cv_sections], [cv_entities] and [is_loaded] as they
    were, whatever document the parser held. *)
Theorem load_failure_keeps_state (L : Libs) (file_path : string) (self : CVParser) :
  supported (Py.lower (suffix file_path)) = false \/
  (exists e, read_content L file_path = Raise e) \/
  (exists content, read_content L file_path = Ok content /\ Py.strip content = "") ->
  load_cv L file_path self = (Ok false, self).
Proof.
  intros [H|[(e & H)|(content & H & Hb)]].
  - eapply load_cv_raise. now apply unsupported_raises.
  - eapply load_cv_raise. exact H.
  - eapply load_cv_blank; [exact H | now rewrite Hb].
Qed.

Lemma load_failure_keeps_state_witness :
  load_cv (one_file scenario_doc []) "cv.rtf" loaded_parser = (Ok false, loaded_parser) /\
  load_cv (one_file scenario_doc []) "cv.pdf" loaded_parser = (Ok false, loaded_parser) /\
  load_cv (one_file "  " []) "cv.txt" loaded_parser = (Ok false, loaded_parser).
Proof.
  split; [|split].
  - apply (load_failure_keeps_state (one_file scenario_doc []) "cv.rtf" loaded_parser).
    left. reflexivity.
  - apply (load_failure_keeps_state (one_file scenario_doc []) "cv.pdf" loaded_parser).
    right. left.
    exists (Exception "Failed to extract PDF content: No such file or directory").
    reflexivity.
  - apply (load_failure_keeps_state (one_file "  " []) "cv.txt" loaded_parser).
    right. right. exists "  ". split; reflexivity.
Defined.

Lemma join_nonempty a v : a <> "" -> Py.join Py.NL (a :: v) <> "".
Proof.
  intros Ha. destruct a as [|c a]; [congruence|].
  destruct v; simpl; discriminate.
Qed.

Lemma parse_sections_nil content :
  parse_sections content = [] <-> body_lines content = [].
Proof.
  unfold parse_sections, segment_loop. rewrite joined_nil.
  rewrite segment_total.
  - unfold body_lines, stripped_lines. simpl.
    rewrite length_zero_iff_nil. tauto.
  - simpl. tauto.
  - intros k Hk. simpl in *. tauto.
Qed.

Lemma parse_sections_no_header content :
  (forall line, In line (stripped_lines content) -> is_header line = false) ->
  Py.truthy (Py.strip content) = true ->
  exists body, parse_sections content = [("other", body)] /\ body <> "".
Proof.
  intros Hno Hne. unfold parse_sections, segment_loop.
  change empty_sections with (only_other []).
  rewrite segment_no_header.
  2:{ intros raw Hin. apply Hno. unfold stripped_lines. now apply in_map. }
  destruct (nonblank_line content Hne) as (line & Hin & Ht).
  destruct (filter Py.truthy (map Py.strip (Py.split Py.nl content))) as [|a v] eqn:E.
  - assert (Hf : In line (filter Py.truthy (map Py.strip (Py.split Py.nl content))))
      by (apply filter_In; split; assumption).
    rewrite E in Hf. destruct Hf.
  - exists (Py.join Py.NL (a :: v)). split; [reflexivity|].
    apply join_nonempty. apply truthy_true.
    assert (Ha : In a (filter Py.truthy (map Py.strip (Py.split Py.nl content))))
      by (rewrite E; now left).
    now apply filter_In in Ha.
Qed.

(** C2, as the code has it. With a supported extension, an extracted
    text that is not empty or white space only, and a pipeline that
    answers on that text, [load_cv] returns [True], sets [is_loaded] and
    stores the text and its segmentation; the sections mapping is
    non-empty exactly when some non-blank line is not a section header;
    when no line is a header it is the single non-empty [other] bucket. *)
Theorem load_supported_nonempty (L : Libs) (file_path : string) (self : CVParser)
        (content : string) (ents : list (string * string)) :
  supported (Py.lower (suffix file_path)) = true ->
  read_content L file_path = Ok content ->
  Py.truthy (Py.strip content) = true ->
  nlp L content = Ok ents ->
  exists self',
    load_cv L file_path self = (Ok true, self') /\
    is_loaded self' = true /\
    cv_content self' = content /\
    cv_sections self' = parse_sections content /\
    (cv_sections self' <> [] <-> body_lines content <> []) /\
    ((forall line, In line (stripped_lines content) -> is_header line = false) ->
     exists body, cv_sections self' = [("other", body)] /\ body <> "").
Proof.
  intros _ Hread Hne Hnlp.
  eexists. split; [apply (load_cv_ok L file_path self content ents Hread Hne Hnlp)|].
  cbn [is_loaded cv_content cv_sections].
  repeat split; try reflexivity.
  - intros H Hb. apply H. now apply parse_sections_nil.
  - intros H Hb. apply H. now apply parse_sections_nil.
  - intros Hno. now apply parse_sections_no_header.
Qed.

Lemma load_supported_nonempty_witness :
  exists self',
    load_cv (one_file plain_doc []) "cv.txt" init = (Ok true, self') /\
    is_loaded self' = true /\
    cv_content self' = plain_doc /\
    cv_sections self' <> [] /\
    exists body, cv_sections self' = [("other", body)] /\ body <> "".
Proof.
  destruct (load_supported_nonempty (one_file plain_doc []) "cv.txt" init plain_doc [])
    as (self' & Hload & Hl & Hc & _ & Hne & Hother); try reflexivity.
  exists self'. repeat split; try assumption.
  - apply Hne. vm_compute. discriminate.
  - apply Hother. vm_compute. intros line [<-|[<-|[]]]; reflexivity.
Defined.

(** C2 as stated fails twice.  A text made of one header line loads
    with [True] and leaves the sections mapping empty.  And a non-blank
    text on which the pipeline raises does not load: [load_cv] returns
    [False]. *)
Lemma load_supported_nonempty_counterexample :
  (supported (Py.lower (suffix "cv.txt")) = true /\
   read_content (one_file "Experience" []) "cv.txt" = Ok "Experience" /\
   Py.truthy (Py.strip "Experience") = true /\
   fst (load_cv (one_file "Experience" []) "cv.txt" init) = Ok true /\
   is_loaded (snd (load_cv (one_file "Experience" []) "cv.txt" init)) = true /\
   cv_sections (snd (load_cv (one_file "Experience" []) "cv.txt" init)) = []) /\
  (supported (Py.lower (suffix "cv.txt")) = true /\
   read_content (refusing plain_doc) "cv.txt" = Ok plain_doc /\
   Py.truthy (Py.strip plain_doc) = true /\
   fst (load_cv (refusing plain_doc) "cv.txt" init) = Ok false /\
   is_loaded (snd (load_cv (refusing plain_doc) "cv.txt" init)) = false).
Proof. vm_compute. repeat split; reflexivity. Qed.

(** ** Answering leaves the parser as it found it *)

Lemma read_only_ret {A} (a : A) : read_only (ret a).
Proof. intros self. reflexivity. Qed.

Lemma read_only_gets {A} (f : CVParser -> A) : read_only (gets f).
Proof. intros self. reflexivity. Qed.

Lemma read_only_bind {A B} (m : M A) (f : A -> M B) :
  read_only m -> (forall a, read_only (f a)) -> read_only (bind m f).
Proof.
  intros Hm Hf self. unfold bind.
  specialize (Hm self). destruct (m self) as [[a|e] self']; simpl in Hm; subst self'.
  - apply Hf.
  - reflexivity.
Qed.

Create HintDb frame.
#[local] Hint Resolve read_only_ret read_only_gets : frame.

(** Peel the reads off a method body, split on its tests, and finish
    at each [return]. *)
Ltac frame :=
  repeat (apply read_only_bind; [apply read_only_gets | intro]);
  repeat match goal with
         | |- read_only (if ?b then _ else _) => destruct b
         | |- read_only (match ?x with _ => _ end) => destruct x
         end;
  auto with frame.

Lemma role_read_only q : read_only (_answer_role_question q).
Proof. unfold _answer_role_question. frame. Qed.

Lemma education_read_only q : read_only (_answer_education_question q).
Proof. unfold _answer_education_question. frame. Qed.

Lemma skills_read_only L q : read_only (_answer_skills_question L q).
Proof. unfold _answer_skills_question. frame. Qed.

Lemma experience_read_only L q : read_only (_answer_experience_question L q).
Proof. unfold _answer_experience_question. frame. Qed.

Lemma projects_read_only q : read_only (_answer_projects_question q).
Proof. unfold _answer_projects_question. frame. Qed.

Lemma general_read_only L q : read_only (_general_search L q).
Proof. unfold _general_search. frame. Qed.

#[local] Hint Resolve role_read_only education_read_only skills_read_only
  experience_read_only projects_read_only general_read_only : frame.

Lemma answer_read_only L q : read_only (answer_question L q).
Proof. unfold answer_question. frame. Qed.

(** C10. [answer_question] is read-only on the parser: after the call,
    through whichever responder or the general search, [cv_content],
    [cv_sections], [cv_entities] and [is_loaded] are what they were
    before it, and asking the same question again gives the same
    result. *)
Theorem answer_question_read_only (L : Libs) (question : string) (self : CVParser) :
  snd (answer_question L question self) = self /\
  answer_question L question (snd (answer_question L question self)) =
  answer_question L question self.
Proof.
  pose proof (answer_read_only L question self) as H.
  split; [exact H | now rewrite H].
Qed.

(** C7. On a parser with [is_loaded = False], [answer_question] returns
    the answer "No CV loaded" with confidence 0.0 and no sources for
    every question, and does not raise. *)
Theorem answer_question_unloaded (L : Libs) (question : string) (self : CVParser) :
  is_loaded self = false ->
  answer_question L question self = (Ok ("No CV loaded", 0.0%Q, []), self).
Proof.
  intros H. unfold answer_question, bind, gets, ret. now rewrite H.
Qed.

Lemma answer_question_unloaded_witness :
  answer_question (one_file scenario_doc []) "What is your most recent role?" init =
  (Ok ("No CV loaded", 0.0%Q, []), init).
Proof.
  apply (answer_question_unloaded (one_file scenario_doc [])
           "What is your most recent role?" init).
  reflexivity.
Defined.

(** ** The e-mail service *)

(** C8. With no SendGrid API key and without both an SMTP user name and
    an SMTP password, [send_email] returns [False] with the
    configuration message and calls neither transport, whatever the
    recipient, subject and body. *)
Theorem send_email_unconfigured (N : Email.Network) (self : Email.EmailService)
        (recipient subject body : string) :
  Email.truthy (Email.sendgrid_api_key self) = false ->
  Email.truthy (Email.smtp_username self) && Email.truthy (Email.smtp_password self)
    = false ->
  Email.is_configured N self = false /\
  Email.send_email N self recipient subject body = ((false, Email.guidance), []).
Proof.
  intros Hk Hp. unfold Email.send_email, Email.is_configured.
  rewrite Hk, Hp, andb_false_r. split; reflexivity.
Qed.

Lemma send_email_unconfigured_witness :
  Email.is_configured open_network bare_service = false /\
  Email.send_email open_network bare_service "hr@example.com" "Hello" "<p>Hi</p>" =
  ((false, Email.guidance), []).
Proof.
  apply (send_email_unconfigured open_network bare_service
           "hr@example.com" "Hello" "<p>Hi</p>"); reflexivity.
Defined.

(** A configured service does reach a transport. *)
Example send_email_configured :
  snd (Email.send_email open_network
         {| Email.sendgrid_api_key := None; Email.smtp_server := "smtp.gmail.com";
            Email.smtp_port := 587; Email.smtp_username := Some "me@example.com";
            Email.smtp_password := Some "secret";
            Email.from_email := "noreply@example.com" |}
         "hr@example.com" "Hello" "Hi")
  = [ Email.SmtpConnect "smtp.gmail.com" 587; Email.SmtpStartTls;
      Email.SmtpLogin (Some "me@example.com") (Some "secret");
      Email.SmtpSendMessage
        (Email.mkMessage "Hello" (Some "me@example.com") "hr@example.com" "plain" "Hi");
      Email.SmtpQuit ].
Proof. reflexivity. Qed.

(** ** The general search *)

Lemma Qgtb_true a b : Qgtb a b = true <-> (b < a)%Q.
Proof.
  unfold Qgtb. rewrite negb_true_iff. split.
  - intros H. apply Qnot_le_lt. intros Hle. apply Qle_bool_iff in Hle. congruence.
  - intros H. destruct (Qle_bool a b) eqn:E; [|reflexivity].
    apply Qle_bool_iff in E. exfalso. exact (Qlt_not_le _ _ H E).
Qed.

Lemma Qgtb_false a b : Qgtb a b = false <-> (a <= b)%Q.
Proof.
  unfold Qgtb. rewrite negb_false_iff. apply Qle_bool_iff.
Qed.

Lemma nodup_length_le (l : list string) :
  List.length (nodup string_dec l) <= List.length l.
Proof.
  induction l as [|x l IH]; simpl; [lia|].
  destruct (in_dec string_dec x l); simpl; lia.
Qed.

Lemma filter_length_le' {A} (f : A -> bool) (l : list A) :
  List.length (filter f l) <= List.length l.
Proof.
  induction l as [|x l IH]; simpl; [lia|].
  destruct (f x); simpl; lia.
Qed.

Lemma overlap_le qw cw : overlap qw cw <= List.length qw.
Proof.
  unfold overlap.
  etransitivity; [apply nodup_length_le | apply filter_length_le'].
Qed.

Lemma ratio_bounds o n : o <= n -> (0 <= ratio o n <= 1)%Q.
Proof.
  intros H. unfold ratio, Qle. cbn [Qnum Qden].
  assert (Hd : Z.pos (Pos.of_nat (Nat.max n 1)) = Z.of_nat (Nat.max n 1)).
  { rewrite <- positive_nat_Z, Nat2Pos.id by lia. reflexivity. }
  rewrite Hd. split; lia.
Qed.

(** Every score is a fraction between 0 and 1. *)
Lemma score_bounds L qw content : (0 <= score L qw content <= 1)%Q.
Proof. unfold score. apply ratio_bounds, overlap_le. Qed.

Lemma search_step_invariant L qw seen acc item :
  best_so_far L qw seen acc ->
  best_so_far L qw (seen ++ [item]) (search_step L qw acc item).
Proof.
  intros Hinv. destruct item as [n c]. unfold search_step.
  destruct Hinv as [[-> Hle]|(n0 & c0 & Hin & Ht & -> & Hpos & Hle)].
  - destruct (Py.truthy c) eqn:Etc; cbn [negb].
    + destruct (Qgtb (score L qw c) 0) eqn:Eg.
      * right. exists n, c. apply Qgtb_true in Eg. repeat split; auto.
        -- apply in_or_app. right. now left.
        -- intros it Hit Htr. apply in_app_or in Hit as [Hit|[<-|[]]].
           ++ eapply Qle_trans; [apply Hle; auto | now apply Qlt_le_weak].
           ++ apply Qle_refl.
      * left. split; [reflexivity|]. apply Qgtb_false in Eg.
        intros it Hit Htr. apply in_app_or in Hit as [Hit|[<-|[]]]; auto.
    + left. split; [reflexivity|].
      intros it Hit Htr. apply in_app_or in Hit as [Hit|[<-|[]]]; auto.
      simpl in Htr. congruence.
  - unfold section_answer.
    destruct (Py.truthy c) eqn:Etc; cbn [negb].
    + destruct (Qgtb (score L qw c) (score L qw c0)) eqn:Eg.
      * right. exists n, c. apply Qgtb_true in Eg. repeat split; auto.
        -- apply in_or_app. right. now left.
        -- eapply Qlt_trans; eauto.
        -- intros it Hit Htr. apply in_app_or in Hit as [Hit|[<-|[]]].
           ++ eapply Qle_trans; [apply Hle; auto | now apply Qlt_le_weak].
           ++ apply Qle_refl.
      * right. exists n0, c0. apply Qgtb_false in Eg. repeat split; auto.
        -- apply in_or_app. now left.
        -- intros it Hit Htr. apply in_app_or in Hit as [Hit|[<-|[]]]; auto.
    + right. exists n0, c0. repeat split; auto.
      * apply in_or_app. now left.
      * intros it Hit Htr. apply in_app_or in Hit as [Hit|[<-|[]]]; auto.
        simpl in Htr. congruence.
Qed.

Lemma search_fold_invariant L qw items :
  forall seen acc,
    best_so_far L qw seen acc ->
    best_so_far L qw (seen ++ items) (fold_left (search_step L qw) items acc).
Proof.
  induction items as [|item items IH]; intros seen acc Hinv; simpl.
  - now rewrite app_nil_r.
  - replace (seen ++ item :: items)%list with ((seen ++ [item]) ++ items)%list
      by (now rewrite <- app_assoc).
    apply IH. now apply search_step_invariant.
Qed.

(** Sections that do not beat the held score leave the loop state alone. *)
Lemma search_fold_skip L qw items :
  forall bm bs src,
    (forall it, In it items -> Py.truthy (snd it) = true ->
                (score L qw (snd it) <= bs)%Q) ->
    fold_left (search_step L qw) items (bm, bs, src) = (bm, bs, src).
Proof.
  induction items as [|[n c] items IH]; intros bm bs src H; simpl; [reflexivity|].
  destruct (Py.truthy c) eqn:Etc; cbn [negb].
  - assert (Hs : Qgtb (score L qw c) bs = false).
    { apply Qgtb_false. apply (H (n, c)); [now left | exact Etc]. }
    rewrite Hs. apply IH. intros it Hit. apply H. now right.
  - apply IH. intros it Hit. apply H. now right.
Qed.

(** The first section that reaches the highest score is the one kept. *)
Lemma search_fold_first_max L qw name content post pre :
  forall bm bs src,
    Py.truthy content = true ->
    (bs < score L qw content)%Q ->
    (forall it, In it pre -> Py.truthy (snd it) = true ->
                (score L qw (snd it) < score L qw content)%Q) ->
    (forall it, In it post -> Py.truthy (snd it) = true ->
                (score L qw (snd it) <= score L qw content)%Q) ->
    fold_left (search_step L qw) (pre ++ (name, content) :: post)%list (bm, bs, src) =
    section_answer L qw name content.
Proof.
  induction pre as [|[n c] pre IH]; intros bm bs src Ht Hbs Hpre Hpost.
  - simpl. rewrite Ht. cbn [negb].
    apply Qgtb_true in Hbs. rewrite Hbs.
    now apply search_fold_skip.
  - simpl.
    assert (Hpre' : forall it, In it pre -> Py.truthy (snd it) = true ->
                               (score L qw (snd it) < score L qw content)%Q)
      by (intros it Hit; apply Hpre; now right).
    destruct (Py.truthy c) eqn:Etc; cbn [negb].
    + destruct (Qgtb (score L qw c) bs).
      * apply IH; auto. apply (Hpre (n, c)); [now left | exact Etc].
      * apply IH; auto.
    + apply IH; auto.
Qed.

Lemma general_search_unfold L question self :
  _general_search L question self =
  (Ok (pick (fold_left (search_step L (content_words L question))
                       (cv_sections self) ("", 0%Q, []))), self).
Proof.
  unfold _general_search, bind, gets, pick.
  destruct (fold_left _ _ _) as [[bm bs] src]. cbn [fst snd].
  destruct (Qgtb bs 0.1%Q); reflexivity.
Qed.

Lemma pick_section L qw name content :
  (0.1 < score L qw content)%Q ->
  pick (section_answer L qw name content) = section_answer L qw name content.
Proof.
  intros H. unfold pick, section_answer. cbn [fst snd].
  apply Qgtb_true in H. now rewrite H.
Qed.

Lemma pick_low L qw name content :
  (score L qw content <= 0.1)%Q ->
  pick (section_answer L qw name content) = not_found.
Proof.
  intros H. unfold pick, section_answer. cbn [fst snd].
  apply Qgtb_false in H. now rewrite H.
Qed.

Lemma general_search_cases L question self :
  let qw := content_words L question in
  _general_search L question self = (Ok not_found, self) \/
  exists name content,
    In (name, content) (cv_sections self) /\ Py.truthy content = true /\
    (0.1 < score L qw content)%Q /\
    (forall it, In it (cv_sections self) -> Py.truthy (snd it) = true ->
                (score L qw (snd it) <= score L qw content)%Q) /\
    _general_search L question self = (Ok (section_answer L qw name content), self).
Proof.
  intros qw. rewrite general_search_unfold. fold qw.
  assert (H0 : best_so_far L qw [] ("", 0%Q, [])).
  { left. split; [reflexivity | intros it []]. }
  pose proof (search_fold_invariant L qw (cv_sections self) [] _ H0) as Hinv.
  simpl in Hinv.
  destruct Hinv as [[-> _]|(n & c & Hin & Ht & -> & Hpos & Hmax)].
  - left. reflexivity.
  - destruct (Qgtb (score L qw c) 0.1%Q) eqn:Eg.
    + right. exists n, c. apply Qgtb_true in Eg.
      rewrite pick_section by exact Eg. repeat split; auto.
    + left. apply Qgtb_false in Eg. now rewrite pick_low.
Qed.

(** C4, as the code has it. [_general_search] gives each non-empty
    section the score
    [|set(question_words) & set(content_words)| / max(len(question_words), 1)],
    where [len(question_words)] counts the question's tokens left after
    lower-casing and stop-word removal with their repetitions.  The first
    section, in the order of the mapping, that reaches the highest score
    is returned (its first 300 characters followed by "...") with that
    score as confidence and as the only source when the score is above
    0.1; when no non-empty section scores above 0.1 the fixed not-found
    answer with confidence 0.2 and no sources is returned.  Whatever is
    returned is one of the two, so no section with a score of 0.1 or
    less is ever selected. *)
Theorem general_search_selects (L : Libs) (question : string) (self : CVParser) :
  let qw := content_words L question in
  (forall content,
      score L qw content =
      (Z.of_nat (List.length (nodup string_dec
                   (filter (fun w => Py.mem w (content_words L content)) qw)))
       # Pos.of_nat (Nat.max (List.length qw) 1))%Q) /\
  (forall pre name content post,
      cv_sections self = (pre ++ (name, content) :: post)%list ->
      Py.truthy content = true ->
      (forall it, In it pre -> Py.truthy (snd it) = true ->
                  (score L qw (snd it) < score L qw content)%Q) ->
      (forall it, In it post -> Py.truthy (snd it) = true ->
                  (score L qw (snd it) <= score L qw content)%Q) ->
      (0.1 < score L qw content)%Q ->
      _general_search L question self =
      (Ok (Py.take 300 content ++ "...", score L qw content, [name]), self)) /\
  ((forall it, In it (cv_sections self) -> Py.truthy (snd it) = true ->
               (score L qw (snd it) <= 0.1)%Q) ->
   _general_search L question self =
   (Ok ("I couldn't find relevant information in the CV to answer that question.",
        0.2%Q, []), self)) /\
  (_general_search L question self = (Ok not_found, self) \/
   exists name content,
     In (name, content) (cv_sections self) /\ Py.truthy content = true /\
     (0.1 < score L qw content)%Q /\
     _general_search L question self =
     (Ok (Py.take 300 content ++ "...", score L qw content, [name]), self)).
Proof.
  intros qw. split; [reflexivity|]. split; [|split].
  - intros pre name content post Hsec Ht Hpre Hpost Hbig.
    rewrite general_search_unfold, Hsec. fold qw.
    rewrite search_fold_first_max; auto.
    + now rewrite pick_section.
    + eapply Qlt_trans; [|exact Hbig]. reflexivity.
  - intros Hlow.
    destruct (general_search_cases L question self)
      as [H|(n & c & Hin & Ht & Hbig & _ & _)]; [exact H|].
    exfalso. fold qw in Hbig.
    apply (Qlt_not_le _ _ Hbig). apply (Hlow (n, c)); assumption.
  - destruct (general_search_cases L question self)
      as [H|(n & c & Hin & Ht & Hbig & _ & H)]; [now left|].
    right. exists n, c. repeat split; assumption.
Qed.

Lemma general_search_selects_witness :
  _general_search (one_file "" []) "python" tie_parser =
  (Ok ("Python developer...", (1 # 1)%Q, ["summary"]), tie_parser).
Proof.
  destruct (general_search_selects (one_file "" []) "python" tie_parser)
    as (_ & Hfirst & _ & _).
  apply (Hfirst [] "summary" "Python developer" [("other", "python fan")]).
  - reflexivity.
  - reflexivity.
  - intros it [].
  - intros it [<-|[]] _. vm_compute. discriminate.
  - vm_compute. reflexivity.
Defined.

(** C4 as stated fails on the denominator: a question that repeats a
    word is scored against the number of its tokens, not against the
    size of its word set. *)
Lemma general_search_counterexample :
  content_words (one_file "" []) "python python" = ["python"; "python"] /\
  answer_question (one_file "" []) "python python" loaded_parser =
    (Ok ("Python developer...", (1 # 2)%Q, ["skills"]), loaded_parser) /\
  spec_score (one_file "" []) "python python" "Python developer" = (1 # 1)%Q /\
  ~ ((1 # 2) == (1 # 1))%Q.
Proof.
  split; [reflexivity|]. split; [vm_compute; reflexivity|].
  split; [vm_compute; reflexivity|]. intros H. vm_compute in H. discriminate.
Qed.

(** ** Confidence *)

Lemma conf_ok_ret a c src : (0 <= c <= 1)%Q -> conf_ok (ret (a, c, src)).
Proof. intros H self. exists a, c, src. split; [reflexivity | exact H]. Qed.

Lemma conf_ok_gets {A} (f : CVParser -> A) (k : A -> M Answer) :
  (forall x, conf_ok (k x)) -> conf_ok (bind (gets f) k).
Proof. intros H self. unfold bind, gets. apply H. Qed.

(** The literal confidences of the responders. *)
Ltac literal := split; unfold Qle; cbn; lia.

Ltac confidence :=
  repeat (apply conf_ok_gets; intro);
  repeat match goal with
         | |- conf_ok (if ?b then _ else _) => destruct b
         | |- conf_ok (match ?x with _ => _ end) => destruct x
         end;
  try (apply conf_ok_ret; literal).

Lemma role_conf q : conf_ok (_answer_role_question q).
Proof. unfold _answer_role_question. confidence. Qed.

Lemma education_conf q : conf_ok (_answer_education_question q).
Proof. unfold _answer_education_question. confidence. Qed.

Lemma skills_conf L q : conf_ok (_answer_skills_question L q).
Proof. unfold _answer_skills_question. confidence. Qed.

Lemma experience_conf L q : conf_ok (_answer_experience_question L q).
Proof. unfold _answer_experience_question. confidence. Qed.

Lemma projects_conf q : conf_ok (_answer_projects_question q).
Proof. unfold _answer_projects_question. confidence. Qed.

Lemma general_conf L q : conf_ok (_general_search L q).
Proof.
  intros self.
  destruct (general_search_cases L q self) as [H|(n & c & _ & _ & _ & _ & H)];
    rewrite H.
  - eexists _, _, _. split; [reflexivity | literal].
  - eexists _, _, _. split; [reflexivity | apply score_bounds].
Qed.

(** C9. For every parser state and question, [answer_question] returns
    a confidence between 0 and 1: the literals 0.0, 0.2, 0.3, 0.4, 0.7
    and 0.8 of the responders are, and the score the general search
    computes is never negative and never above 1. *)
Theorem answer_question_confidence (L : Libs) (question : string) (self : CVParser) :
  (exists answer confidence sources,
      answer_question L question self = (Ok (answer, confidence, sources), self) /\
      (0 <= confidence <= 1)%Q) /\
  Forall (fun c => (0 <= c <= 1)%Q) [0.0; 0.2; 0.3; 0.4; 0.7; 0.8]%Q /\
  (forall content, (0 <= score L (content_words L question) content <= 1)%Q).
Proof.
  split; [|split].
  - revert self. change (conf_ok (answer_question L question)).
    unfold answer_question. confidence;
      auto using role_conf, education_conf, skills_conf, experience_conf,
                 projects_conf, general_conf.
  - repeat constructor; unfold Qle; cbn; lia.
  - intros content. apply score_bounds.
Qed.

(** ** The scenario document *)

Lemma scenario_sections :
  parse_sections scenario_doc = [("experience", scenario_experience)].
Proof. vm_compute. reflexivity. Qed.

Lemma scenario_state L file_path self ents :
  read_content L file_path = Ok scenario_doc ->
  nlp L scenario_doc = Ok ents ->
  load_cv L file_path self =
  (Ok true,
   {| cv_content := scenario_doc;
      cv_sections := [("experience", scenario_experience)];
      cv_entities := extract ents scenario_doc [("experience", scenario_experience)];
      is_loaded := true |}).
Proof.
  intros H Hn.
  rewrite (load_cv_ok L file_path self scenario_doc ents H eq_refl Hn).
  now rewrite scenario_sections.
Qed.

(** The delimiter rule on the first experience line: the enclosed text,
    stripped, is appended unless the list already holds it. *)
Lemma company_step_acme orgs :
  company_step orgs "Engineer | Acme Corp | 2020-2022" =
  if Py.mem "Acme Corp" orgs then orgs else (orgs ++ ["Acme Corp"])%list.
Proof.
  unfold company_step. rewrite company_regex_ex.
  change (Py.strip "Acme Corp ") with "Acme Corp". cbn [Py.truthy andb].
  destruct (Py.mem "Acme Corp" orgs); reflexivity.
Qed.

Lemma company_step_senior orgs : company_step orgs "Senior Engineer" = orgs.
Proof. reflexivity. Qed.

Lemma mem_In x l : Py.mem x l = true -> In x l.
Proof.
  unfold Py.mem. intros H. apply existsb_exists in H as (y & Hy & E).
  apply String.eqb_eq in E. now subst.
Qed.

(** C5. After loading the document with the lines "Experience",
    "Engineer | Acme Corp | 2020-2022" and "Senior Engineer",
    [cv_sections['experience']] is the two lines after the header joined
    by a line feed, and [cv_entities['organizations']] holds
    "Acme Corp": the delimiter rule takes it from the first experience
    line and appends it to the organizations the recogniser gave unless
    it is among them already.  This holds whatever entities the
    recogniser gives on the document. *)
Theorem scenario_experience_and_organizations (L : Libs) (file_path : string)
        (self : CVParser) (ents : list (string * string)) :
  read_content L file_path = Ok scenario_doc ->
  nlp L scenario_doc = Ok ents ->
  let self' := snd (load_cv L file_path self) in
  let found := organizations (fold_left route_entity ents no_entities) in
  fst (load_cv L file_path self) = Ok true /\
  Py.get (cv_sections self') "experience" "" =
    Py.join Py.NL ["Engineer | Acme Corp | 2020-2022"; "Senior Engineer"] /\
  Py.get (cv_entities self') "organizations" [] =
    (if Py.mem "Acme Corp" found then found else (found ++ ["Acme Corp"])%list) /\
  In "Acme Corp" (Py.get (cv_entities self') "organizations" []).
Proof.
  intros H Hn self' found. subst self'.
  rewrite (scenario_state L file_path self ents H Hn).
  cbn [fst snd cv_sections cv_entities].
  assert (Horg : Py.get (extract ents scenario_doc [("experience", scenario_experience)])
                        "organizations" [] =
                 if Py.mem "Acme Corp" found then found
                 else (found ++ ["Acme Corp"])%list).
  { unfold extract.
    change (Py.get [("experience", scenario_experience)] "experience" "")
      with scenario_experience.
    change (Py.split Py.nl scenario_experience)
      with ["Engineer | Acme Corp | 2020-2022"; "Senior Engineer"].
    cbn [fold_left]. rewrite company_step_senior, company_step_acme.
    reflexivity. }
  split; [reflexivity|]. split; [reflexivity|]. split; [exact Horg|].
  rewrite Horg. destruct (Py.mem "Acme Corp" found) eqn:E.
  - now apply mem_In.
  - apply in_or_app. right. now left.
Qed.

Lemma scenario_experience_and_organizations_witness :
  Py.get (cv_sections (snd (load_cv (one_file scenario_doc []) "cv.txt" init)))
         "experience" "" =
    Py.join Py.NL ["Engineer | Acme Corp | 2020-2022"; "Senior Engineer"] /\
  Py.get (cv_entities (snd (load_cv (one_file scenario_doc []) "cv.txt" init)))
         "organizations" [] = ["Acme Corp"].
Proof.
  destruct (scenario_experience_and_organizations
              (one_file scenario_doc []) "cv.txt" init []) as (_ & Hs & Ho & _).
  - reflexivity.
  - reflexivity.
  - split; [exact Hs | exact Ho].
Defined.

(** The recogniser may already have found the company: it is not
    appended a second time. *)
Example scenario_no_duplicate :
  Py.get (cv_entities (snd (load_cv (one_file scenario_doc [("ORG", "Acme Corp")])
                                    "cv.txt" init)))
         "organizations" [] = ["Acme Corp"].
Proof. vm_compute. reflexivity. Qed.

(** C6. Against the scenario document, the question
    "What is your most recent role?" goes to the role responder, which
    answers with the first experience line that holds a job-title word,
    "Engineer | Acme Corp | 2020-2022", at confidence 0.8 with
    [['experience']] as sources. *)
Theorem scenario_most_recent_role (L : Libs) (file_path : string) (self : CVParser)
        (ents : list (string * string)) :
  read_content L file_path = Ok scenario_doc ->
  nlp L scenario_doc = Ok ents ->
  let self' := snd (load_cv L file_path self) in
  let question := "What is your most recent role?" in
  Py.any_in ["role"; "position"; "job"; "title"] (Py.lower question) = true /\
  answer_question L question self' = _answer_role_question question self' /\
  answer_question L question self' =
    (Ok ("Your most recent role appears to be: Engineer | Acme Corp | 2020-2022",
         0.8%Q, ["experience"]), self') /\
  Py.contains "Engineer | Acme Corp | 2020-2022"
    "Your most recent role appears to be: Engineer | Acme Corp | 2020-2022" = true /\
  find (fun line => Py.any_in role_words (Py.lower line))
       (Py.split Py.nl (Py.get (cv_sections self') "experience" "")) =
    Some "Engineer | Acme Corp | 2020-2022".
Proof.
  intros H Hn self' question. subst self'.
  rewrite (scenario_state L file_path self ents H Hn).
  cbn [snd]. repeat split; vm_compute; reflexivity.
Qed.

Lemma scenario_most_recent_role_witness :
  answer_question (one_file scenario_doc []) "What is your most recent role?"
    (snd (load_cv (one_file scenario_doc []) "cv.txt" init)) =
  (Ok ("Your most recent role appears to be: Engineer | Acme Corp | 2020-2022",
       0.8%Q, ["experience"]),
   snd (load_cv (one_file scenario_doc []) "cv.txt" init)).
Proof.
  destruct (scenario_most_recent_role (one_file scenario_doc []) "cv.txt" init [])
    as (_ & _ & Ha & _).
  - reflexivity.
  - reflexivity.
  - exact Ha.
Defined.

(** * Further properties of the code *)

(** ** Segmentation as a grouping of lines under their headers *)

Lemma get_append_line section line d k :
  In section (map fst d) ->
  Py.get (append_line section line d) k [] =
  if String.eqb section k then (Py.get d k [] ++ [line])%list else Py.get d k [].
Proof.
  induction d as [|[k' v] d IH]; simpl; intros Hin; [contradiction|].
  destruct (String.eqb k' section) eqn:Es.
  - apply String.eqb_eq in Es. subst k'. simpl.
    destruct (String.eqb section k); reflexivity.
  - simpl. destruct Hin as [Hin|Hin]; [apply String.eqb_neq in Es; congruence|].
    destruct (String.eqb k' k) eqn:Ek.
    + apply String.eqb_eq in Ek. subst k'. now rewrite String.eqb_sym, Es.
    + now apply IH.
Qed.

Lemma pattern_names_in_sections section :
  In section (map fst section_patterns) -> In section section_names.
Proof. simpl. intuition. Qed.

Lemma tagged_cons cur raw rest :
  tagged cur (raw :: rest) =
  if negb (Py.truthy (Py.strip raw)) then tagged cur rest
  else match find_header section_patterns (Py.strip raw) with
       | Some section => tagged section rest
       | None => (cur, Py.strip raw) :: tagged cur rest
       end.
Proof. reflexivity. Qed.

Lemma segment_fold_get lines :
  forall cur d k,
    map fst d = section_names -> In cur section_names ->
    Py.get (snd (fold_left segment_step lines (cur, d))) k [] =
    (Py.get d k [] ++ lines_of k (tagged cur lines))%list.
Proof.
  induction lines as [|raw lines IH]; intros cur d k Hk Hcur.
  - unfold lines_of. simpl. now rewrite app_nil_r.
  - rewrite tagged_cons. cbn [fold_left].
    step_cases raw; cbn [negb fst snd].
    + apply IH; auto. apply pattern_names_in_sections.
      eapply find_header_key; eauto.
    + rewrite IH; auto; [|now rewrite append_line_keys].
      rewrite get_append_line by (now rewrite Hk).
      unfold lines_of. simpl.
      destruct (String.eqb cur k); [now rewrite <- app_assoc | reflexivity].
    + now apply IH.
Qed.

Lemma segment_fold_keys lines :
  forall cur d, map fst (snd (fold_left segment_step lines (cur, d))) = map fst d.
Proof.
  induction lines as [|raw lines IH]; intros cur d; simpl; [reflexivity|].
  step_cases raw; cbn [fst snd]; rewrite IH; auto using append_line_keys.
Qed.

(** A dictionary with distinct keys is its keys paired with its values. *)
Lemma dict_eta {V} (d : list (string * V)) (dflt : V) :
  NoDup (map fst d) -> d = map (fun k => (k, Py.get d k dflt)) (map fst d).
Proof.
  induction d as [|[k v] d IH]; simpl; intros Hnd; [reflexivity|].
  inversion Hnd as [|? ? Hk Hd]; subst.
  rewrite String.eqb_refl. f_equal.
  rewrite (IH Hd) at 1. apply map_ext_in. intros k' Hk'.
  destruct (String.eqb k k') eqn:E; [|reflexivity].
  apply String.eqb_eq in E. subst. contradiction.
Qed.

Lemma filter_map_comm {A B} (f : B -> bool) (g : A -> B) (l : list A) :
  filter f (map g l) = map g (filter (fun x => f (g x)) l).
Proof.
  induction l as [|x l IH]; simpl; [reflexivity|].
  destruct (f (g x)); simpl; now rewrite IH.
Qed.

Lemma section_names_nodup : NoDup section_names.
Proof.
  unfold section_names.
  repeat (constructor; [simpl; intuition discriminate|]). constructor.
Qed.

Lemma get_empty_sections k : Py.get empty_sections k [] = [].
Proof.
  unfold empty_sections. cbn [Py.get].
  repeat match goal with
         | |- context [String.eqb ?a k] => destruct (String.eqb a k)
         end; reflexivity.
Qed.

(** The segmentation groups the body lines under their headers: each of
    the nine names that has lines gets them joined, in order. *)
Lemma parse_sections_tagged content :
  let T := tagged "other" (Py.split Py.nl content) in
  parse_sections content =
  map (fun k => (k, Py.join Py.NL (lines_of k T)))
      (filter (fun k => match lines_of k T with [] => false | _ => true end)
              section_names).
Proof.
  intros T. unfold parse_sections, segment_loop.
  set (d := snd (fold_left segment_step (Py.split Py.nl content)
                           ("other", empty_sections))).
  assert (Hkeys : map fst d = section_names)
    by (unfold d; now rewrite segment_fold_keys).
  assert (Hget : forall k, Py.get d k [] = lines_of k T).
  { intros k. unfold d. rewrite segment_fold_get.
    - now rewrite get_empty_sections.
    - reflexivity.
    - simpl. tauto. }
  rewrite (dict_eta d []) by (rewrite Hkeys; apply section_names_nodup).
  rewrite Hkeys. unfold joined_sections.
  rewrite filter_map_comm, map_map. cbn [fst snd].
  erewrite map_ext_in.
  - erewrite filter_ext; [reflexivity|].
    intros k. now rewrite Hget.
  - intros k _. cbn. now rewrite Hget.
Qed.

Lemma tagged_sound lines :
  forall cur p,
    (forall raw, In raw lines -> has_char Py.nl raw = false) ->
    In cur section_names ->
    In p (tagged cur lines) ->
    In (fst p) section_names /\ Py.truthy (snd p) = true /\
    has_char Py.nl (snd p) = false /\ is_header (snd p) = false.
Proof.
  induction lines as [|raw lines IH]; intros cur p Hnl Hcur Hp; [destruct Hp|].
  assert (Hnl' : forall r, In r lines -> has_char Py.nl r = false)
    by (intros r Hr; apply Hnl; now right).
  rewrite tagged_cons in Hp.
  destruct (Py.truthy (Py.strip raw)) eqn:Ht; cbn [negb] in Hp.
  - destruct (find_header section_patterns (Py.strip raw)) as [sec|] eqn:Hh.
    + apply (IH sec); auto. apply pattern_names_in_sections.
      eapply find_header_key; eauto.
    + destruct Hp as [<-|Hp]; [|apply (IH cur); auto].
      cbn [fst snd]. repeat split; auto.
      * apply strip_no_char. apply Hnl. now left.
      * unfold is_header. now rewrite Hh.
  - apply (IH cur); auto.
Qed.

Lemma tagged_other_sound content k l :
  In (k, l) (tagged "other" (Py.split Py.nl content)) ->
  In k section_names /\ Py.truthy l = true /\
  has_char Py.nl l = false /\ is_header l = false.
Proof.
  intros H.
  apply (tagged_sound (Py.split Py.nl content) "other" (k, l)); auto.
  - apply split_no_sep.
  - unfold section_names. simpl. tauto.
Qed.

Lemma tagged_complete lines :
  forall cur raw,
    In raw lines -> Py.truthy (Py.strip raw) = true ->
    is_header (Py.strip raw) = false ->
    exists k, In (k, Py.strip raw) (tagged cur lines).
Proof.
  induction lines as [|r lines IH]; intros cur raw Hin Ht Hh; [destruct Hin|].
  rewrite tagged_cons. destruct Hin as [->|Hin].
  - rewrite Ht. cbn [negb]. unfold is_header in Hh.
    destruct (find_header section_patterns (Py.strip raw)); [discriminate|].
    exists cur. now left.
  - destruct (Py.truthy (Py.strip r)); cbn [negb]; [|now apply IH].
    destruct (find_header section_patterns (Py.strip r)) as [sec|].
    + now apply IH.
    + destruct (IH cur raw Hin Ht Hh) as (k & Hk). exists k. now right.
Qed.

Lemma lines_of_in k l T : In l (lines_of k T) <-> In (k, l) T.
Proof.
  unfold lines_of. rewrite in_map_iff. split.
  - intros ([k' l'] & <- & Hf). apply filter_In in Hf as [Hin E].
    cbn in E. apply String.eqb_eq in E. now subst.
  - intros Hin. exists (k, l). split; [reflexivity|].
    apply filter_In. split; [exact Hin | apply String.eqb_refl].
Qed.

Lemma parse_sections_in content k body :
  In (k, body) (parse_sections content) <->
  In k section_names /\
  lines_of k (tagged "other" (Py.split Py.nl content)) <> [] /\
  body = Py.join Py.NL (lines_of k (tagged "other" (Py.split Py.nl content))).
Proof.
  rewrite parse_sections_tagged. cbv zeta. rewrite in_map_iff. split.
  - intros (k' & Heq & Hf). inversion Heq; subst.
    apply filter_In in Hf as [Hin Hne]. repeat split; auto.
    intros E. rewrite E in Hne. discriminate.
  - intros (Hin & Hne & ->). exists k. split; [reflexivity|].
    apply filter_In. split; [exact Hin|].
    destruct (lines_of k _); [congruence | reflexivity].
Qed.

Lemma body_lines_are_tagged content k body :
  In (k, body) (parse_sections content) ->
  Py.split Py.nl body = lines_of k (tagged "other" (Py.split Py.nl content)).
Proof.
  intros H. apply parse_sections_in in H as (_ & Hne & ->).
  apply split_join; [exact Hne|].
  intros l Hl. apply lines_of_in in Hl.
  now destruct (tagged_other_sound _ _ _ Hl) as (_ & _ & Hn & _).
Qed.

Lemma long_not_header line :
  50 <= String.length line -> is_header line = false.
Proof.
  intros H. unfold is_header.
  assert (Hn : forall patterns, find_header patterns line = None).
  { induction patterns as [|[s p] rest IH]; simpl; [reflexivity|].
    unfold header_test.
    assert (E : (String.length line <? 50)%nat = false) by (apply Nat.ltb_ge; lia).
    now rewrite E, andb_false_r. }
  now rewrite Hn.
Qed.

Lemma get_held (d : list (string * string)) k :
  Py.truthy (Py.get d k "") = true -> In (k, Py.get d k "") d.
Proof.
  induction d as [|[k' v] d IH]; simpl; [discriminate|].
  destruct (String.eqb k' k) eqn:E.
  - apply String.eqb_eq in E. subst. now left.
  - intros H. right. now apply IH.
Qed.

Lemma get_of_binding {V} (d : list (string * V)) k v dflt :
  NoDup (map fst d) -> In (k, v) d -> Py.get d k dflt = v.
Proof.
  induction d as [|[k' v'] d IH]; simpl; intros Hnd Hin; [contradiction|].
  inversion Hnd as [|? ? Hk Hd]; subst.
  destruct Hin as [Hin|Hin].
  - inversion Hin; subst. now rewrite String.eqb_refl.
  - destruct (String.eqb k' k) eqn:E; [|now apply IH].
    apply String.eqb_eq in E. subst. exfalso. apply Hk.
    apply in_map_iff. now exists (k, v).
Qed.

Lemma sections_keys_distinct content : NoDup (map fst (parse_sections content)).
Proof.
  rewrite parse_sections_tagged. cbv zeta. rewrite map_map. cbn [fst].
  rewrite map_id. apply NoDup_filter, section_names_nodup.
Qed.

(** X1. [_parse_cv_sections] groups the lines under their headers: the
    mapping it stores has, for each of the nine section names that
    received at least one body line and in the order of the nine, the
    lines that follow a header of that name (or, for [other], that come
    before any header) joined by line feeds; looking a name up in the
    mapping, with the empty string as default, gives those lines joined. *)
Theorem segmentation_groups_lines (content : string) :
  parse_sections content =
  map (fun k => (k, Py.join Py.NL (lines_of k (tagged "other" (Py.split Py.nl content)))))
      (filter (fun k => match lines_of k (tagged "other" (Py.split Py.nl content)) with
                        | [] => false
                        | _ => true
                        end)
              section_names) /\
  forall k,
    Py.get (parse_sections content) k "" =
    Py.join Py.NL (lines_of k (tagged "other" (Py.split Py.nl content))).
Proof.
  split; [apply parse_sections_tagged|]. intros k.
  destruct (lines_of k (tagged "other" (Py.split Py.nl content))) as [|l ls] eqn:E.
  - destruct (Py.truthy (Py.get (parse_sections content) k "")) eqn:Et.
    + apply get_held in Et. apply parse_sections_in in Et as (_ & Hne & _).
      congruence.
    + now apply truthy_false in Et.
  - assert (Hin : In (k, Py.join Py.NL (l :: ls)) (parse_sections content)).
    { apply parse_sections_in. rewrite E. repeat split; [|discriminate].
      assert (Hl : In (k, l) (tagged "other" (Py.split Py.nl content)))
        by (apply lines_of_in; rewrite E; now left).
      now destruct (tagged_other_sound _ _ _ Hl) as (Hn & _). }
    now apply (get_of_binding _ _ _ "" (sections_keys_distinct content)).
Qed.

(** X2. Every mapping [_parse_cv_sections] stores has distinct keys
    among the nine section names, in their fixed order, and no empty
    value: each body is non-empty and none of its lines is empty. *)
Theorem sections_shape (content : string) :
  (exists keep, map fst (parse_sections content) = filter keep section_names) /\
  NoDup (map fst (parse_sections content)) /\
  (forall k body,
      In (k, body) (parse_sections content) ->
      Py.truthy body = true /\
      forall line, In line (Py.split Py.nl body) -> Py.truthy line = true).
Proof.
  assert (Hkeys : map fst (parse_sections content) =
                  filter (fun k => match lines_of k (tagged "other"
                                            (Py.split Py.nl content)) with
                                   | [] => false | _ => true end) section_names).
  { rewrite parse_sections_tagged. cbv zeta. rewrite map_map. cbn [fst].
    now rewrite map_id. }
  split; [eexists; exact Hkeys|]. split.
  - rewrite Hkeys. apply NoDup_filter, section_names_nodup.
  - intros k body Hin.
    assert (Hl : forall line, In line (Py.split Py.nl body) -> Py.truthy line = true).
    { intros line Hline. rewrite (body_lines_are_tagged _ _ _ Hin) in Hline.
      apply lines_of_in in Hline.
      now destruct (tagged_other_sound _ _ _ Hline) as (_ & Ht & _). }
    split; [|exact Hl].
    pose proof (body_lines_are_tagged _ _ _ Hin) as Hs.
    apply parse_sections_in in Hin as (_ & Hne & _).
    destruct body; [|reflexivity].
    simpl in Hs. rewrite <- Hs in Hne.
    specialize (Hl "" (or_introl eq_refl)). discriminate.
Qed.

(** X3. No body line is lost: a non-blank line that is not a section
    header, and in particular every line of 50 characters or more
    whatever keywords it holds, is a line of some section body. *)
Theorem body_line_is_kept (content raw : string) :
  In raw (Py.split Py.nl content) ->
  (Py.truthy (Py.strip raw) = true /\ is_header (Py.strip raw) = false) \/
  50 <= String.length (Py.strip raw) ->
  exists k body,
    In (k, body) (parse_sections content) /\ In (Py.strip raw) (Py.split Py.nl body).
Proof.
  intros Hin Hcase.
  assert (Hb : Py.truthy (Py.strip raw) = true /\ is_header (Py.strip raw) = false).
  { destruct Hcase as [Hb|Hlen]; [exact Hb|]. split.
    - destruct (Py.strip raw); [simpl in Hlen; lia | reflexivity].
    - now apply long_not_header. }
  destruct Hb as [Ht Hh].
  destruct (tagged_complete _ "other" raw Hin Ht Hh) as (k & Hk).
  assert (Hl : In (Py.strip raw)
                  (lines_of k (tagged "other" (Py.split Py.nl content))))
    by now apply lines_of_in.
  assert (Hp : In (k, Py.join Py.NL (lines_of k (tagged "other" (Py.split Py.nl content))))
                  (parse_sections content)).
  { apply parse_sections_in. repeat split.
    - now destruct (tagged_other_sound _ _ _ Hk) as (Hn & _).
    - intros E. rewrite E in Hl. destruct Hl. }
  exists k, (Py.join Py.NL (lines_of k (tagged "other" (Py.split Py.nl content)))).
  split; [exact Hp|]. now rewrite (body_lines_are_tagged _ _ _ Hp).
Qed.

Lemma body_line_is_kept_witness :
  exists k body,
    In (k, body)
       (parse_sections ("Skills" ++ Py.NL ++
          "Ten years of professional experience building data platforms")) /\
    In "Ten years of professional experience building data platforms"
       (Py.split Py.nl body).
Proof.
  apply (body_line_is_kept
           ("Skills" ++ Py.NL ++
            "Ten years of professional experience building data platforms")
           "Ten years of professional experience building data platforms").
  - vm_compute. right. left. reflexivity.
  - right. vm_compute. lia.
Defined.

(** ** Entities *)

(** Case analysis on the label of one entity, as the [if]/[elif] chain
    of the loop over [doc.ents] reads it. *)
Ltac by_label label :=
  unfold route_entity, labelled, Py.mem; cbn [existsb filter map fst snd];
  destruct (String.eqb_spec label "PERSON");
    [subst; cbn; rewrite ?app_nil_r; reflexivity|];
  destruct (String.eqb_spec label "ORG");
    [subst; cbn; rewrite ?app_nil_r; reflexivity|];
  destruct (String.eqb_spec label "COMPANY");
    [subst; cbn; rewrite ?app_nil_r; reflexivity|];
  destruct (String.eqb_spec label "GPE");
    [subst; cbn; rewrite ?app_nil_r; reflexivity|];
  destruct (String.eqb_spec label "LOC");
    [subst; cbn; rewrite ?app_nil_r; reflexivity|];
  destruct (String.eqb_spec label "DATE");
    [subst; cbn; rewrite ?app_nil_r; reflexivity|];
  cbn; rewrite ?app_nil_r; reflexivity.

Lemma route_persons e label text :
  persons (route_entity e (label, text)) =
  (persons e ++ labelled ["PERSON"] [(label, text)])%list.
Proof. by_label label. Qed.

Lemma route_organizations e label text :
  organizations (route_entity e (label, text)) =
  (organizations e ++ labelled ["ORG"; "COMPANY"] [(label, text)])%list.
Proof. by_label label. Qed.

Lemma route_locations e label text :
  locations (route_entity e (label, text)) =
  (locations e ++ labelled ["GPE"; "LOC"] [(label, text)])%list.
Proof. by_label label. Qed.

Lemma route_dates e label text :
  dates (route_entity e (label, text)) =
  (dates e ++ labelled ["DATE"] [(label, text)])%list.
Proof. by_label label. Qed.

Lemma route_technologies e label text :
  technologies (route_entity e (label, text)) = technologies e.
Proof. by_label label. Qed.

Lemma labelled_cons labels ent ents :
  labelled labels (ent :: ents) = (labelled labels [ent] ++ labelled labels ents)%list.
Proof.
  unfold labelled. simpl. destruct (Py.mem (fst ent) labels); reflexivity.
Qed.

Lemma route_fold ents :
  forall e,
    persons (fold_left route_entity ents e) =
      (persons e ++ labelled ["PERSON"] ents)%list /\
    organizations (fold_left route_entity ents e) =
      (organizations e ++ labelled ["ORG"; "COMPANY"] ents)%list /\
    locations (fold_left route_entity ents e) =
      (locations e ++ labelled ["GPE"; "LOC"] ents)%list /\
    dates (fold_left route_entity ents e) =
      (dates e ++ labelled ["DATE"] ents)%list /\
    technologies (fold_left route_entity ents e) = technologies e.
Proof.
  induction ents as [|[label text] ents IH]; intros e.
  - unfold labelled. simpl. now rewrite !app_nil_r.
  - cbn [fold_left].
    destruct (IH (route_entity e (label, text))) as (Hp & Ho & Hl & Hd & Ht).
    rewrite Hp, Ho, Hl, Hd, Ht.
    rewrite route_persons, route_organizations, route_locations, route_dates,
      route_technologies.
    rewrite (labelled_cons ["PERSON"] (label, text) ents),
      (labelled_cons ["ORG"; "COMPANY"] (label, text) ents),
      (labelled_cons ["GPE"; "LOC"] (label, text) ents),
      (labelled_cons ["DATE"] (label, text) ents).
    rewrite <- !app_assoc. repeat split; reflexivity.
Qed.

Lemma mem_false_not_in x l : Py.mem x l = false -> ~ In x l.
Proof.
  unfold Py.mem. intros H Hin.
  assert (existsb (String.eqb x) l = true)
    by (apply existsb_exists; exists x; split; [exact Hin | apply String.eqb_refl]).
  congruence.
Qed.

(** One line adds at most one company: a non-empty one the list lacks. *)
Lemma company_step_cases orgs line :
  company_step orgs line = orgs \/
  exists company,
    company_step orgs line = (orgs ++ [company])%list /\
    Py.truthy company = true /\ ~ In company orgs.
Proof.
  unfold company_step.
  destruct (Re.search company_regex line) as [[g|]|]; auto.
  destruct (Py.truthy (Py.strip g)) eqn:Et; cbn [andb]; auto.
  destruct (Py.mem (Py.strip g) orgs) eqn:Em; cbn [negb]; auto.
  right. exists (Py.strip g). repeat split; auto. now apply mem_false_not_in.
Qed.

Lemma company_fold lines :
  forall orgs, exists extra,
    fold_left company_step lines orgs = (orgs ++ extra)%list /\
    (forall c, In c extra -> Py.truthy c = true /\ ~ In c orgs) /\
    NoDup extra.
Proof.
  induction lines as [|line lines IH]; intros orgs.
  - exists []. simpl. rewrite app_nil_r.
    split; [reflexivity|]. split; [intros c []|constructor].
  - cbn [fold_left].
    destruct (company_step_cases orgs line) as [->|(c & -> & Ht & Hn)]; [apply IH|].
    destruct (IH (orgs ++ [c])%list) as (extra & Heq & Hex & Hnd).
    exists (c :: extra). rewrite Heq, <- app_assoc. split; [reflexivity|]. split.
    + intros x [<-|Hx]; [now split|].
      destruct (Hex x Hx) as [Htx Hnx]. split; [exact Htx|].
      intros Hin. apply Hnx. apply in_or_app. now left.
    + constructor; [|exact Hnd].
      intros Hin. destruct (Hex c Hin) as [_ Hnc]. apply Hnc.
      apply in_or_app. right. now left.
Qed.

Lemma tech_keywords_nodup : NoDup tech_keywords.
Proof.
  replace tech_keywords with (nodup string_dec tech_keywords)
    by (vm_compute; reflexivity).
  apply NoDup_nodup.
Qed.

(** X4. The entities [_extract_entities] files from the recogniser are,
    for each kind, the texts with that kind's labels in document order:
    PERSON for persons, GPE and LOC for locations, DATE for dates;
    entities with any other label are dropped. *)
Theorem entities_by_label (ents : list (string * string)) (content : string)
        (sections : list (string * string)) :
  Py.get (extract ents content sections) "persons" [] =
    labelled ["PERSON"] ents /\
  Py.get (extract ents content sections) "locations" [] =
    labelled ["GPE"; "LOC"] ents /\
  Py.get (extract ents content sections) "dates" [] =
    labelled ["DATE"] ents /\
  map fst (extract ents content sections) =
    ["persons"; "organizations"; "locations"; "dates"; "technologies"].
Proof.
  unfold extract.
  destruct (route_fold ents no_entities) as (Hp & _ & Hl & Hd & _).
  cbn. rewrite Hp, Hl, Hd. repeat split; reflexivity.
Qed.

(** X5. [cv_entities['organizations']] is the recogniser's ORG and
    COMPANY texts, in order and untouched, followed by the companies the
    delimiter rule found: these are non-empty, distinct, and none
    repeats a recognised one.  Without an experience section nothing is
    added. *)
Theorem organizations_extend_recognised (ents : list (string * string)) (content : string)
        (sections : list (string * string)) :
  let found := labelled ["ORG"; "COMPANY"] ents in
  (exists extra,
      Py.get (extract ents content sections) "organizations" [] = (found ++ extra)%list /\
      (forall c, In c extra -> Py.truthy c = true /\ ~ In c found) /\
      NoDup extra) /\
  (Py.get sections "experience" "" = "" ->
   Py.get (extract ents content sections) "organizations" [] = found).
Proof.
  intros found. unfold extract.
  destruct (route_fold ents no_entities) as (_ & Ho & _).
  cbn [organizations no_entities app] in Ho.
  change (Py.get (entities_dict ?e) "organizations" []) with (organizations e).
  cbn [organizations]. rewrite Ho. fold found. split.
  - apply company_fold.
  - intros ->. reflexivity.
Qed.

(** X6. [cv_entities['technologies']] is the keywords of the fixed list
    that occur in the lower-cased text, in the order of that list and
    without repetition, whatever the recogniser found. *)
Theorem technologies_are_keywords (ents : list (string * string)) (content : string)
        (sections : list (string * string)) :
  Py.get (extract ents content sections) "technologies" [] =
    filter (fun tech => Py.contains tech (Py.lower content)) tech_keywords /\
  NoDup (Py.get (extract ents content sections) "technologies" []) /\
  (forall tech,
      In tech (Py.get (extract ents content sections) "technologies" []) <->
      In tech tech_keywords /\ Py.contains tech (Py.lower content) = true).
Proof.
  assert (E : Py.get (extract ents content sections) "technologies" [] =
              filter (fun tech => Py.contains tech (Py.lower content)) tech_keywords).
  { unfold extract.
    destruct (route_fold ents no_entities) as (_ & _ & _ & _ & Ht).
    change (Py.get (entities_dict ?e) "technologies" []) with (technologies e).
    cbn [technologies]. rewrite Ht. reflexivity. }
  rewrite E. split; [reflexivity|]. split.
  - apply NoDup_filter, tech_keywords_nodup.
  - intros tech. rewrite filter_In. tauto.
Qed.

(** ** More on strings *)

Lemma str_app_assoc (a b c : string) : (a ++ b) ++ c = a ++ b ++ c.
Proof. induction a as [|x a IH]; simpl; [reflexivity | now rewrite IH]. Qed.

Lemma str_app_nil_r (a : string) : a ++ "" = a.
Proof. induction a as [|x a IH]; simpl; [reflexivity | now rewrite IH]. Qed.

Lemma str_length_app (a b : string) :
  String.length (a ++ b) = String.length a + String.length b.
Proof. induction a as [|x a IH]; simpl; [reflexivity | now rewrite IH]. Qed.

Lemma take_length n s : String.length (Py.take n s) = Nat.min n (String.length s).
Proof.
  unfold Py.take. revert s.
  induction n as [|n IH]; intros [|c s]; simpl; auto.
Qed.

Lemma take_all n s : String.length s <= n -> Py.take n s = s.
Proof.
  unfold Py.take. revert s.
  induction n as [|n IH]; intros [|c s]; simpl; intros H; auto; try lia.
  f_equal. apply IH. lia.
Qed.

Lemma has_char_app c a b : has_char c (a ++ b) = has_char c a || has_char c b.
Proof.
  induction a as [|x a IH]; simpl; [reflexivity|]. now rewrite IH, orb_assoc.
Qed.

(** ** Loading, over any history *)

Lemma load_cv_cases L file_path self :
  (load_cv L file_path self = (Ok false, self) /\
   forall content, read_content L file_path = Ok content ->
                   Py.truthy (Py.strip content) = false) \/
  (exists content ents,
      read_content L file_path = Ok content /\
      Py.truthy (Py.strip content) = true /\
      nlp L content = Ok ents /\
      load_cv L file_path self =
      (Ok true,
       {| cv_content := content;
          cv_sections := parse_sections content;
          cv_entities := extract ents content (parse_sections content);
          is_loaded := true |})) \/
  (exists content e,
      read_content L file_path = Ok content /\
      Py.truthy (Py.strip content) = true /\
      nlp L content = Raise e /\
      load_cv L file_path self = (Ok false, text_replaced content self)).
Proof.
  destruct (read_content L file_path) as [content|e] eqn:E.
  - destruct (Py.truthy (Py.strip content)) eqn:Et.
    + destruct (nlp L content) as [ents|e] eqn:En.
      * right. left. exists content, ents. repeat split; auto.
        now apply load_cv_ok.
      * right. right. exists content, e. repeat split; auto.
        now apply (load_cv_nlp_raise L file_path self content e).
    + left. split; [now apply (load_cv_blank L file_path self content)|].
      intros c Hc. inversion Hc. now subst.
  - left. split; [now apply (load_cv_raise L file_path self e)|].
    intros c Hc. discriminate.
Qed.



(** The pipeline's refusal leaves the new text beside the old entities. *)
Example load_refused_overwrites_text :
  load_cv picky "big.txt" loaded_parser =
  (Ok false,
   {| cv_content := "Jane Doe";
      cv_sections := [("other", "Jane Doe")];
      cv_entities := cv_entities loaded_parser;
      is_loaded := true |}).
Proof. vm_compute. reflexivity. Qed.


Lemma load_keeps_loaded L file_path self :
  is_loaded self = true -> is_loaded (snd (load_cv L file_path self)) = true.
Proof.
  intros Hl.
  destruct (load_cv_cases L file_path self)
    as [[E _]|[(content & ents & _ & _ & _ & E)|(content & e & _ & _ & _ & E)]];
    rewrite E; cbn [snd is_loaded text_replaced]; auto.
Qed.



(** After a load that the pipeline refused, the entities are still those
    of the document loaded before, beside the text of the new one. *)
Example loads_leave_stale_entities :
  cv_content (after_loads picky ["cv.txt"; "big.txt"] init) = "Jane Doe" /\
  Py.get (cv_entities (after_loads picky ["cv.txt"; "big.txt"] init))
         "organizations" [] = ["Acme Corp"].
Proof. vm_compute. split; reflexivity. Qed.

(** X9. A successful [load_cv] replaces the document wholesale: the
    state it leaves does not depend on the state it found. *)
Theorem load_replaces_wholesale (L : Libs) (file_path : string)
        (self other : CVParser) :
  fst (load_cv L file_path self) = Ok true ->
  load_cv L file_path other = load_cv L file_path self.
Proof.
  destruct (load_cv_cases L file_path self)
    as [[E _]|[(content & ents & Hr & Ht & Hn & E)|(content & e & _ & _ & _ & E)]];
    rewrite E; cbn [fst]; try discriminate.
  intros _. now apply load_cv_ok.
Qed.

Lemma load_replaces_wholesale_witness :
  load_cv (one_file scenario_doc []) "cv.txt" loaded_parser =
  load_cv (one_file scenario_doc []) "cv.txt" init.
Proof.
  apply (load_replaces_wholesale (one_file scenario_doc []) "cv.txt" init loaded_parser).
  reflexivity.
Defined.

(** X10. Once a document is loaded the parser stays loaded: no sequence
    of later [load_cv] calls, failing or not, clears [is_loaded]. *)
Theorem loaded_stays_loaded (L : Libs) (paths : list string) (self : CVParser) :
  is_loaded self = true -> is_loaded (after_loads L paths self) = true.
Proof.
  unfold after_loads. revert self.
  induction paths as [|p paths IH]; intros self Hl; cbn [fold_left]; [exact Hl|].
  apply IH. now apply load_keeps_loaded.
Qed.

Lemma loaded_stays_loaded_witness :
  is_loaded (after_loads (one_file "  " []) ["cv.txt"; "cv.rtf"] loaded_parser) = true.
Proof.
  apply (loaded_stays_loaded (one_file "  " []) ["cv.txt"; "cv.rtf"] loaded_parser).
  reflexivity.
Defined.

(** ** Text extraction *)

Lemma plumber_pages_all_ok texts :
  forall content,
    plumber_pages (map Ok texts) content =
    (content ++ lines_text (page_texts texts), None).
Proof.
  induction texts as [|text texts IH]; intros content; simpl.
  - now rewrite str_app_nil_r.
  - rewrite IH. destruct text as [t|]; [destruct (Py.truthy t)|]; simpl;
      now rewrite ?str_app_assoc.
Qed.

Lemma pypdf2_pages_extends pages :
  forall content content',
    pypdf2_pages pages content = Ok content' ->
    exists rest, content' = content ++ rest.
Proof.
  induction pages as [|[t|e] pages IH]; intros content content' H; simpl in H.
  - inversion H. exists "". now rewrite str_app_nil_r.
  - destruct (IH _ _ H) as (rest & ->).
    exists (t ++ Py.NL ++ rest). now rewrite !str_app_assoc.
  - discriminate.
Qed.

Lemma pypdf2_pages_raise pages :
  forall content e,
    pypdf2_pages pages content = Raise e -> In (Raise e) pages.
Proof.
  induction pages as [|[t|e'] pages IH]; intros content e H; simpl in H.
  - discriminate.
  - right. eapply IH; eauto.
  - inversion H. now left.
Qed.

Lemma pypdf2_fallback_cases L file_path content :
  (exists rest, pypdf2_fallback L file_path content = Ok (content ++ rest)) \/
  (exists e,
      pypdf2_fallback L file_path content =
        Raise (Exception ("Failed to extract PDF content: " ++ exn_str e)) /\
      (pypdf2_open L file_path = Raise e \/
       exists pages, pypdf2_open L file_path = Ok pages /\ In (Raise e) pages)).
Proof.
  unfold pypdf2_fallback.
  destruct (pypdf2_open L file_path) as [pages|e] eqn:Eo.
  - destruct (pypdf2_pages pages content) as [c|e] eqn:Ep.
    + left. destruct (pypdf2_pages_extends _ _ _ Ep) as (rest & ->). now exists rest.
    + right. exists e. split; [reflexivity|]. right. exists pages. split; [reflexivity|].
      eapply pypdf2_pages_raise; eauto.
  - right. exists e. split; [reflexivity|]. now left.
Qed.

(** X11. When pdfplumber opens the file and reads every page,
    [_extract_pdf_content] returns the non-empty page texts, each
    followed by a line feed, and PyPDF2 has no part in the result. *)
Theorem pdf_without_fallback (L : Libs) (file_path : string)
        (texts : list (option string)) :
  pdfplumber_open L file_path = Ok (map Ok texts) ->
  _extract_pdf_content L file_path = Ok (lines_text (page_texts texts)).
Proof.
  intros H. unfold _extract_pdf_content. rewrite H, plumber_pages_all_ok.
  reflexivity.
Qed.

(** X12. When pdfplumber raises part-way, the text of the pages read
    before the fault is kept, and what PyPDF2 reads from the whole file
    is appended after it. *)
Theorem pdf_fallback_keeps_partial_text (L : Libs) (file_path : string)
        (pages : list (Result (option string))) (partial : string) (e : exn)
        (content : string) :
  pdfplumber_open L file_path = Ok pages ->
  plumber_pages pages "" = (partial, Some e) ->
  _extract_pdf_content L file_path = Ok content ->
  exists rest,
    content = partial ++ rest /\
    exists pages2, pypdf2_open L file_path = Ok pages2 /\
                   pypdf2_pages pages2 "" = Ok rest.
Proof.
  intros Ho Hp Hc. unfold _extract_pdf_content in Hc. rewrite Ho, Hp in Hc.
  unfold pypdf2_fallback in Hc.
  destruct (pypdf2_open L file_path) as [pages2|e2]; [|discriminate].
  destruct (pypdf2_pages pages2 partial) as [c|e2] eqn:E; [|discriminate].
  inversion Hc; subst c. clear Hc.
  assert (Hgen : forall ps a b c, pypdf2_pages ps (a ++ b) = Ok c ->
                   exists r, c = a ++ r /\ pypdf2_pages ps b = Ok r).
  { induction ps as [|[t|e'] ps IH]; intros a b c H; simpl in *.
    - inversion H. now exists b.
    - rewrite str_app_assoc in H. now apply IH.
    - discriminate. }
  destruct (Hgen pages2 partial "" content) as (r & -> & Hr).
  { now rewrite str_app_nil_r. }
  exists r. split; [reflexivity|]. now exists pages2.
Qed.

Lemma pdf_fallback_keeps_partial_text_witness :
  exists rest,
    ("Page one" ++ Py.NL ++ "Page one" ++ Py.NL ++ "Page two" ++ Py.NL) =
    ("Page one" ++ Py.NL) ++ rest /\
    exists pages2, pypdf2_open torn_pdf "cv.pdf" = Ok pages2 /\
                   pypdf2_pages pages2 "" = Ok rest.
Proof.
  apply (pdf_fallback_keeps_partial_text torn_pdf "cv.pdf"
           [Ok (Some "Page one"); Raise (LibraryError "bad page")]
           ("Page one" ++ Py.NL) (LibraryError "bad page")); reflexivity.
Defined.

Lemma pdf_without_fallback_witness :
  _extract_pdf_content
    {| pdfplumber_open := fun _ => Ok (map Ok [Some "Page one"; None; Some ""; Some "Page two"]);
       pypdf2_open := fun _ => no_file;
       docx_paragraphs := fun _ => no_file;
       read_text := fun _ => no_file;
       nlp := fun _ => Ok [];
       word_tokenize := fun _ => [];
       stop_words := [];
       set_iter := fun l => l |} "cv.pdf"
  = Ok ("Page one" ++ Py.NL ++ "Page two" ++ Py.NL).
Proof.
  apply (pdf_without_fallback _ "cv.pdf" [Some "Page one"; None; Some ""; Some "Page two"]).
  reflexivity.
Defined.

(** X13. An exception that leaves [_extract_pdf_content] is always an
    [Exception] whose message is "Failed to extract PDF content: "
    followed by the text of the fault PyPDF2 met, at opening or on a
    page; what pdfplumber raised is never reported.  Likewise
    [_extract_docx_content] raises only an [Exception] that wraps the
    reader's fault. *)
Theorem extraction_errors_are_wrapped (L : Libs) (file_path : string) (e : exn) :
  (_extract_pdf_content L file_path = Raise e ->
   exists cause,
     e = Exception ("Failed to extract PDF content: " ++ exn_str cause) /\
     (pypdf2_open L file_path = Raise cause \/
      exists pages, pypdf2_open L file_path = Ok pages /\ In (Raise cause) pages)) /\
  (_extract_docx_content L file_path = Raise e ->
   exists cause,
     e = Exception ("Failed to extract DOCX content: " ++ exn_str cause) /\
     docx_paragraphs L file_path = Raise cause).
Proof.
  split.
  - unfold _extract_pdf_content. intros H.
    assert (Hf : forall c, pypdf2_fallback L file_path c = Raise e ->
                 exists cause,
                   e = Exception ("Failed to extract PDF content: " ++ exn_str cause) /\
                   (pypdf2_open L file_path = Raise cause \/
                    exists pages, pypdf2_open L file_path = Ok pages /\
                                  In (Raise cause) pages)).
    { intros c Hc.
      destruct (pypdf2_fallback_cases L file_path c) as [(r & Hr)|(cause & Hr & Hw)];
        rewrite Hr in Hc; [discriminate|].
      inversion Hc. now exists cause. }
    destruct (pdfplumber_open L file_path) as [pages|e0]; [|now apply (Hf "")].
    destruct (plumber_pages pages "") as [c [e1|]]; [now apply (Hf c) | discriminate].
  - unfold _extract_docx_content. intros H.
    destruct (docx_paragraphs L file_path) as [ps|cause]; [discriminate|].
    inversion H. now exists cause.
Qed.

Lemma extraction_errors_are_wrapped_witness :
  exists cause,
    Exception "Failed to extract PDF content: No such file or directory" =
    Exception ("Failed to extract PDF content: " ++ exn_str cause) /\
    (pypdf2_open (one_file "" []) "cv.pdf" = Raise cause \/
     exists pages, pypdf2_open (one_file "" []) "cv.pdf" = Ok pages /\
                   In (Raise cause) pages).
Proof.
  destruct (extraction_errors_are_wrapped (one_file "" []) "cv.pdf"
              (Exception "Failed to extract PDF content: No such file or directory"))
    as [Hpdf _].
  apply Hpdf. reflexivity.
Defined.

Lemma docx_fold paragraphs :
  forall content,
    fold_left (fun content text => content ++ text ++ Py.NL) paragraphs content =
    content ++ lines_text paragraphs.
Proof.
  induction paragraphs as [|t ps IH]; intros content; simpl.
  - now rewrite str_app_nil_r.
  - rewrite IH. now rewrite !str_app_assoc.
Qed.

Lemma split_lines_text paragraphs :
  (forall t, In t paragraphs -> has_char Py.nl t = false) ->
  Py.split Py.nl (lines_text paragraphs) = (paragraphs ++ [""])%list.
Proof.
  induction paragraphs as [|t ps IH]; intros H; [reflexivity|].
  cbn [lines_text fold_right app].
  change (t ++ Py.NL ++ fold_right (fun t acc => t ++ Py.NL ++ acc) "" ps)
    with (t ++ String Py.nl (lines_text ps)).
  rewrite split_app by (apply H; now left).
  f_equal. apply IH. intros t' Ht'. apply H. now right.
Qed.

(** X14. [_extract_docx_content] writes one line per paragraph: when no
    paragraph holds a line feed, splitting the returned text at line
    feeds gives back the paragraphs, followed by one empty line, so the
    segmentation sees each paragraph as one line. *)
Theorem docx_paragraphs_are_lines (L : Libs) (file_path : string)
        (paragraphs : list string) :
  docx_paragraphs L file_path = Ok paragraphs ->
  (forall t, In t paragraphs -> has_char Py.nl t = false) ->
  exists content,
    _extract_docx_content L file_path = Ok content /\
    Py.split Py.nl content = (paragraphs ++ [""])%list /\
    stripped_lines content = (map Py.strip paragraphs ++ [""])%list.
Proof.
  intros Hd Hn. unfold _extract_docx_content. rewrite Hd.
  eexists. split; [reflexivity|].
  rewrite docx_fold. cbn [append].
  assert (Hs : Py.split Py.nl (lines_text paragraphs) = (paragraphs ++ [""])%list)
    by now apply split_lines_text.
  split; [exact Hs|].
  unfold stripped_lines. rewrite Hs, map_app. reflexivity.
Qed.

Lemma docx_paragraphs_are_lines_witness :
  exists content,
    _extract_docx_content
      {| pdfplumber_open := fun _ => no_file;
         pypdf2_open := fun _ => no_file;
         docx_paragraphs := fun _ => Ok ["Experience"; " Senior Engineer "];
         read_text := fun _ => no_file;
         nlp := fun _ => Ok [];
         word_tokenize := fun _ => [];
         stop_words := [];
         set_iter := fun l => l |} "cv.docx" = Ok content /\
    Py.split Py.nl content = ["Experience"; " Senior Engineer "; ""] /\
    stripped_lines content = ["Experience"; "Senior Engineer"; ""].
Proof.
  apply (docx_paragraphs_are_lines _ "cv.docx" ["Experience"; " Senior Engineer "]).
  - reflexivity.
  - intros t [<-|[<-|[]]]; reflexivity.
Defined.

(** ** Answers and summaries *)

Lemma get_in (d : list (string * string)) k :
  Py.truthy (Py.get d k "") = true -> In (k, Py.get d k "") d.
Proof. apply get_held. Qed.

Lemma take_bound n s : String.length (Py.take n s) <= n.
Proof. rewrite take_length. lia. Qed.

(** X15. Truncated answers respect their budget: the answer of
    [_general_search] is never longer than 303 characters (300 of the
    section and the three dots) and that of [_answer_projects_question]
    never longer than 213 (the label "Projects: ", 200 of the section
    and the three dots); both return without touching the parser. *)
Theorem truncated_answers_bounded (L : Libs) (question : string) (self : CVParser) :
  (exists answer confidence sources,
      _general_search L question self = (Ok (answer, confidence, sources), self) /\
      String.length answer <= 303) /\
  (exists answer confidence sources,
      _answer_projects_question question self = (Ok (answer, confidence, sources), self) /\
      String.length answer <= 213).
Proof.
  split.
  - destruct (general_search_cases L question self) as [H|(n & c & _ & _ & _ & _ & H)];
      rewrite H.
    + eexists _, _, _. split; [reflexivity|]. cbn. lia.
    + eexists _, _, _. split; [reflexivity|].
      rewrite str_length_app. pose proof (take_bound 300 c). cbn [String.length]. lia.
  - unfold _answer_projects_question, bind, gets.
    destruct (Py.truthy (Py.get (cv_sections self) "projects" "")).
    + eexists _, _, _. split; [reflexivity|].
      rewrite !str_length_app.
      pose proof (take_bound 200 (Py.get (cv_sections self) "projects" "")).
      cbn [String.length]. lia.
    + eexists _, _, _. split; [reflexivity|]. cbn. lia.
Qed.

(** X16. The role, education and projects responders and the general
    search cite only sections the parser holds with non-empty text:
    every name in their sources is a key of [cv_sections] bound to a
    non-empty string. *)
Theorem sources_name_held_sections (L : Libs) (question : string) (self : CVParser) :
  forall m : M Answer,
    In m [ _answer_role_question question; _answer_education_question question;
           _answer_projects_question question; _general_search L question ] ->
    exists answer confidence sources,
      m self = (Ok (answer, confidence, sources), self) /\
      forall name, In name sources ->
        exists content, In (name, content) (cv_sections self) /\
                        Py.truthy content = true.
Proof.
  intros m [<-|[<-|[<-|[<-|[]]]]].
  - unfold _answer_role_question, bind, gets.
    destruct (Py.truthy (Py.get (cv_sections self) "experience" "")) eqn:E; cbn [negb].
    + destruct (map Py.strip _);
        (eexists _, _, _; split; [reflexivity|]);
        intros name [<-|[]]; eexists; split; [apply get_in| |apply get_in|]; eauto.
    + eexists _, _, _. split; [reflexivity | intros name []].
  - unfold _answer_education_question, bind, gets.
    destruct (Py.truthy (Py.get (cv_sections self) "education" "")) eqn:E; cbn [negb].
    + eexists _, _, _. split; [reflexivity|].
      intros name [<-|[]]. eexists. split; [apply get_in|]; eauto.
    + eexists _, _, _. split; [reflexivity | intros name []].
  - unfold _answer_projects_question, bind, gets.
    destruct (Py.truthy (Py.get (cv_sections self) "projects" "")) eqn:E.
    + eexists _, _, _. split; [reflexivity|].
      intros name [<-|[]]. eexists. split; [apply get_in|]; eauto.
    + eexists _, _, _. split; [reflexivity | intros name []].
  - destruct (general_search_cases L question self)
      as [H|(n & c & Hin & Ht & _ & _ & H)]; rewrite H.
    + eexists _, _, _. split; [reflexivity | intros name []].
    + eexists _, _, _. split; [reflexivity|].
      intros name [<-|[]]. now exists c.
Qed.

Lemma sources_name_held_sections_witness :
  exists answer confidence sources,
    _answer_role_question "What is your most recent role?"
      (snd (load_cv (one_file scenario_doc []) "cv.txt" init)) =
      (Ok (answer, confidence, sources),
       snd (load_cv (one_file scenario_doc []) "cv.txt" init)) /\
    forall name, In name sources ->
      exists content,
        In (name, content)
           (cv_sections (snd (load_cv (one_file scenario_doc []) "cv.txt" init))) /\
        Py.truthy content = true.
Proof.
  apply (sources_name_held_sections (one_file scenario_doc [])
           "What is your most recent role?"
           (snd (load_cv (one_file scenario_doc []) "cv.txt" init))).
  left. reflexivity.
Defined.

Lemma preview_cases v :
  (String.length v <= 100 /\ preview v = v) \/
  (100 < String.length v /\ preview v = Py.take 100 v ++ "..." /\
   String.length (preview v) = 103).
Proof.
  unfold preview. destruct (Nat.ltb_spec 100 (String.length v)).
  - right. repeat split; auto.
    rewrite str_length_app, take_length. cbn [String.length]. lia.
  - left. now split.
Qed.

(** X17. [get_cv_summary] on a parser without a document returns the
    dictionary with the single key [error] (it does not raise).  With a
    document it lists the section names in the order of the mapping and
    gives one preview per section, under the same names in the same
    order: the section itself when it has at most 100 characters, else
    its first 100 characters and three dots, so never more than 103. *)
Theorem summary_previews (L : Libs) (self : CVParser) :
  (is_loaded self = false ->
   get_cv_summary L self = (Ok (SummaryError "No CV loaded"), self)) /\
  (is_loaded self = true ->
   exists previews,
     get_cv_summary L self =
       (Ok (SummaryOk (map fst (cv_sections self)) (cv_entities self)
                      (List.length (word_tokenize L (cv_content self))) previews), self) /\
     map fst previews = map fst (cv_sections self) /\
     map snd previews = map preview (map snd (cv_sections self)) /\
     forall k p, In (k, p) previews ->
       String.length p <= 103 /\
       exists v, In (k, v) (cv_sections self) /\
                 (String.length v <= 100 -> p = v) /\
                 (100 < String.length v -> p = Py.take 100 v ++ "...")).
Proof.
  unfold get_cv_summary, bind, gets. split; intros Hl; rewrite Hl; cbn [negb].
  - reflexivity.
  - eexists. split; [reflexivity|]. rewrite !map_map. cbn [fst snd].
    split; [reflexivity|]. split; [reflexivity|].
    intros k p Hin. apply in_map_iff in Hin as ([k' v] & Heq & Hin).
    cbn [fst snd] in Heq. inversion Heq; subst. split.
    + destruct (preview_cases v) as [[Hs ->]|(Hs & _ & ->)]; lia.
    + exists v. split; [exact Hin|].
      destruct (preview_cases v) as [[Hs ->]|(Hs & -> & _)]; split; auto; lia.
Qed.

Lemma summary_previews_witness :
  exists previews,
    get_cv_summary (one_file "" []) loaded_parser =
      (Ok (SummaryOk ["skills"] (cv_entities loaded_parser) 2 previews), loaded_parser) /\
    map fst previews = ["skills"] /\
    map snd previews = ["Python developer"] /\
    forall k p, In (k, p) previews ->
      String.length p <= 103 /\
      exists v, In (k, v) (cv_sections loaded_parser) /\
                (String.length v <= 100 -> p = v) /\
                (100 < String.length v -> p = Py.take 100 v ++ "...").
Proof.
  destruct (summary_previews (one_file "" []) loaded_parser) as [_ Hs].
  exact (Hs eq_refl).
Defined.

(** ** The e-mail transports *)

(** X18. With the SendGrid client importable and an API key set,
    [send_email] never calls SMTP, whether or not SMTP credentials are
    set and whatever SendGrid does (there is no fallback), and makes at
    most one transport call: the SendGrid request, made exactly when the
    message and the client could be built.  It reports success exactly
    when they could and SendGrid answers 200, 201 or 202. *)
Theorem sendgrid_has_priority (N : Email.Network) (self : Email.EmailService)
        (recipient subject body : string) :
  Email.SENDGRID_AVAILABLE N = true ->
  Email.truthy (Email.sendgrid_api_key self) = true ->
  let built :=
    Email.sg_mail N (Email.from_email self) recipient subject body = Ok tt /\
    Email.sg_client N (Email.sendgrid_api_key self) = Ok tt in
  let request := Email.SendGridSend (Email.from_email self) recipient subject body in
  forallb (fun ev => negb (is_smtp ev))
          (snd (Email.send_email N self recipient subject body)) = true /\
  (built -> snd (Email.send_email N self recipient subject body) = [request]) /\
  (~ built -> snd (Email.send_email N self recipient subject body) = []) /\
  (fst (fst (Email.send_email N self recipient subject body)) = true <->
   built /\
   exists status_code,
     Email.sg_send N (Email.from_email self) recipient subject body = Ok status_code /\
     In status_code [200; 201; 202]).
Proof.
  intros Ha Hk built request. subst built request.
  unfold Email.send_email, Email.is_configured.
  rewrite Ha, Hk. cbn [andb negb]. unfold Email._send_with_sendgrid.
  destruct (Email.sg_mail N (Email.from_email self) recipient subject body)
    as [[]|e0]; cbn [fst snd].
  2:{ split; [reflexivity|]. split; [intros [H _]; discriminate|].
      split; [reflexivity|]. split; [discriminate|]. intros [[H _] _]. discriminate. }
  destruct (Email.sg_client N (Email.sendgrid_api_key self)) as [[]|e1]; cbn [fst snd].
  2:{ split; [reflexivity|]. split; [intros [_ H]; discriminate|].
      split; [reflexivity|]. split; [discriminate|]. intros [[_ H] _]. discriminate. }
  destruct (Email.sg_send N (Email.from_email self) recipient subject body)
    as [status|e].
  - destruct (existsb (Nat.eqb status) [200; 201; 202]) eqn:E; cbn [fst snd].
    + split; [reflexivity|]. split; [reflexivity|].
      split; [intros H; exfalso; apply H; now split|].
      split; [|reflexivity]. intros _. split; [now split|]. exists status.
      split; [reflexivity|].
      apply existsb_exists in E as (x & Hx & Ex). apply Nat.eqb_eq in Ex. now subst.
    + split; [reflexivity|]. split; [reflexivity|].
      split; [intros H; exfalso; apply H; now split|].
      split; [discriminate|].
      intros (_ & st & Hst & Hin). inversion Hst; subst st.
      assert (existsb (Nat.eqb status) [200; 201; 202] = true)
        by (apply existsb_exists; exists status; split; [exact Hin | apply Nat.eqb_refl]).
      congruence.
  - cbn [fst snd]. split; [reflexivity|]. split; [reflexivity|].
    split; [intros H; exfalso; apply H; now split|].
    split; [discriminate|]. intros (_ & st & Hst & _). discriminate.
Qed.

Lemma sendgrid_has_priority_witness :
  snd (Email.send_email open_network full_service "hr@example.com" "Hello" "Hi") =
    [Email.SendGridSend "noreply@example.com" "hr@example.com" "Hello" "Hi"] /\
  snd (Email.send_email rejecting_network full_service "hr@example.com" "Hello" "Hi") = [].
Proof.
  split.
  - pose proof (sendgrid_has_priority open_network full_service
                  "hr@example.com" "Hello" "Hi" eq_refl eq_refl) as H.
    cbv zeta in H. destruct H as (_ & Hb & _).
    apply Hb. split; reflexivity.
  - pose proof (sendgrid_has_priority rejecting_network full_service
                  "hr@example.com" "Hello" "Hi" eq_refl eq_refl) as H.
    cbv zeta in H. destruct H as (_ & _ & Hn & _).
    apply Hn. intros [H _]. discriminate.
Defined.



(** X20. The closing branches that return "No email service available"
    are never taken: [send_email] gives the configuration message or the
    result of one transport, and [test_connection] answers [True]
    exactly when [is_configured] does, with one of its three other
    messages. *)
Theorem no_service_branch_is_dead (N : Email.Network) (self : Email.EmailService)
        (recipient subject body : string) :
  Email.send_email N self recipient subject body =
    (if negb (Email.is_configured N self) then ((false, Email.guidance), [])
     else if Email.SENDGRID_AVAILABLE N && Email.truthy (Email.sendgrid_api_key self)
          then Email._send_with_sendgrid N self recipient subject body
          else Email._send_with_smtp N self recipient subject body) /\
  fst (Email.test_connection N self) = Email.is_configured N self /\
  In (snd (Email.test_connection N self))
     ["Email service not configured"; "SendGrid configured"; "SMTP configured"] /\
  snd (fst (Email.send_email N self recipient subject body))
    <> "No email service available".
Proof.
  unfold Email.send_email, Email.test_connection, Email.is_configured.
  destruct (Email.SENDGRID_AVAILABLE N && Email.truthy (Email.sendgrid_api_key self))
    eqn:Es; cbn [negb].
  - repeat split; cbn; auto.
    unfold Email._send_with_sendgrid.
    destruct (Email.sg_mail N _ _ _ _) as [[]|e0]; [|cbn; discriminate].
    destruct (Email.sg_client N _) as [[]|e1]; [|cbn; discriminate].
    destruct (Email.sg_send N _ _ _ _) as [st|e];
      [destruct (existsb _ _)|]; cbn; discriminate.
  - destruct (Email.truthy (Email.smtp_username self) &&
              Email.truthy (Email.smtp_password self)) eqn:Ep; cbn [negb].
    + repeat split; cbn; auto.
      unfold Email._send_with_smtp, Email.smtp_session, Email.smtp_failure.
      destruct (Email.smtp_connect N _ _) as [[]|e1]; [|cbn; discriminate].
      destruct (Email.smtp_starttls N) as [[]|e2];
        [|destruct (Email.smtp_quit N) as [[]|e5]; cbn; discriminate].
      destruct (Email.smtp_login N _ _) as [|msg|e3].
      * destruct (Email.smtp_send_message N _) as [[]|e4];
          destruct (Email.smtp_quit N) as [[]|e5]; cbn; discriminate.
      * destruct (Py.contains "gmail" _);
          destruct (Email.smtp_quit N) as [[]|e5]; cbn; discriminate.
      * destruct (Email.smtp_quit N) as [[]|e5]; cbn; discriminate.
    + repeat split; cbn; auto. discriminate.
Qed.

(** ** The endpoints of [main.py] *)

Lemma answer_question_returns L question : conf_ok (answer_question L question).
Proof.
  unfold answer_question. confidence;
    auto using role_conf, education_conf, skills_conf, experience_conf,
               projects_conf, general_conf.
Qed.

(** X21. [chat_about_cv] never answers with status 400: without a
    document the [HTTPException(400)] it raises is caught by its own
    [except Exception] and leaves as status 500; with a document it
    answers 200 with the triple of [answer_question].  Either way the
    parser is as it was. *)
Theorem chat_endpoint_status (L : Libs) (H : Main.Host) (question : string)
        (self : CVParser) :
  (is_loaded self = false ->
   Main.chat_about_cv L H question self =
   (Ok (Main.HTTPException 500
          ("Error processing question: " ++
           Main.http_str H 400 "No CV loaded. Please upload a CV first.")), self)) /\
  (is_loaded self = true ->
   exists a,
     answer_question L question self = (Ok a, self) /\
     Main.chat_about_cv L H question self = (Ok (Main.Http200 a), self)).
Proof.
  split; intros Hl.
  - unfold Main.chat_about_cv, Main.or_500, Main.abort, is_cv_loaded, bind, gets, ret.
    rewrite Hl. reflexivity.
  - destruct (answer_question_returns L question self) as (a & c & src & Ha & _).
    exists (a, c, src). split; [exact Ha|].
    unfold Main.chat_about_cv, Main.or_500, is_cv_loaded, bind, gets, ret.
    rewrite Hl. cbn [negb]. now rewrite Ha.
Qed.

Lemma chat_endpoint_status_witness :
  Main.chat_about_cv (one_file "" []) (Main.mkHost (fun c d => d) (fun _ => Ok tt)
                                                   (fun _ => Ok tt))
                     "What is your most recent role?" init =
  (Ok (Main.HTTPException 500
         "Error processing question: No CV loaded. Please upload a CV first."), init).
Proof.
  destruct (chat_endpoint_status (one_file "" [])
              (Main.mkHost (fun c d => d) (fun _ => Ok tt) (fun _ => Ok tt))
              "What is your most recent role?" init) as [Hun _].
  exact (Hun eq_refl).
Defined.

(** X22. [get_cv_info] never answers with status 400 either: without a
    document it leaves as status 500, with one it answers 200 with the
    dictionary of [get_cv_summary]; the parser is as it was. *)
Theorem cv_info_endpoint_status (L : Libs) (H : Main.Host) (self : CVParser) :
  (is_loaded self = false ->
   Main.get_cv_info L H self =
   (Ok (Main.HTTPException 500
          ("Error getting CV info: " ++ Main.http_str H 400 "No CV loaded")), self)) /\
  (is_loaded self = true ->
   exists previews,
     Main.get_cv_info L H self =
     (Ok (Main.Http200
            (SummaryOk (map fst (cv_sections self)) (cv_entities self)
                       (List.length (word_tokenize L (cv_content self))) previews)),
      self) /\
     map fst previews = map fst (cv_sections self)).
Proof.
  split; intros Hl.
  - unfold Main.get_cv_info, Main.or_500, Main.abort, is_cv_loaded, bind, gets, ret.
    rewrite Hl. reflexivity.
  - assert (Hs : get_cv_summary L self =
                 (Ok (SummaryOk (map fst (cv_sections self)) (cv_entities self)
                        (List.length (word_tokenize L (cv_content self)))
                        (map (fun kv => (fst kv, preview (snd kv))) (cv_sections self))),
                  self)).
    { unfold get_cv_summary, bind, gets, ret. now rewrite Hl. }
    eexists. split.
    + unfold Main.get_cv_info, Main.or_500, is_cv_loaded, bind, gets, ret.
      rewrite Hl. cbn [negb]. rewrite Hs. reflexivity.
    + now rewrite map_map.
Qed.

Lemma cv_info_endpoint_status_witness :
  Main.get_cv_info (one_file "" []) (Main.mkHost (fun c d => d) (fun _ => Ok tt)
                                                 (fun _ => Ok tt)) init =
  (Ok (Main.HTTPException 500 "Error getting CV info: No CV loaded"), init).
Proof.
  destruct (cv_info_endpoint_status (one_file "" [])
              (Main.mkHost (fun c d => d) (fun _ => Ok tt) (fun _ => Ok tt)) init)
    as [Hun _].
  exact (Hun eq_refl).
Defined.

Lemma load_cv_returns L file_path self :
  exists b, fst (load_cv L file_path self) = Ok b.
Proof.
  destruct (load_cv_cases L file_path self)
    as [[E _]|[(content & ents & _ & _ & _ & E)|(content & e & _ & _ & _ & E)]];
    rewrite E; cbn [fst]; eauto.
Qed.

(** X23. [upload_cv] answers 200 exactly when the upload was stored,
    [load_cv] returned [True] and the temporary file was removed; every
    other outcome is a status 500, a parse failure included, whose
    [HTTPException(400)] is caught by the handler.  When storing the
    upload fails [load_cv] is not called and the parser is as it was;
    otherwise the parser is the one [load_cv] left, also when the
    answer is 500. *)
Theorem upload_endpoint_status (L : Libs) (H : Main.Host) (filename : string)
        (self : CVParser) :
  let temp_path := "temp_" ++ filename in
  (forall e,
      Main.save_upload H temp_path = Raise e ->
      Main.upload_cv L H filename self =
      (Ok (Main.HTTPException 500 ("Error processing CV: " ++ exn_str e)), self)) /\
  (Main.save_upload H temp_path = Ok tt ->
   snd (Main.upload_cv L H filename self) = snd (load_cv L temp_path self) /\
   (fst (Main.upload_cv L H filename self) =
      Ok (Main.Http200 ("CV uploaded and parsed successfully", filename)) <->
    fst (load_cv L temp_path self) = Ok true /\ Main.os_unlink H temp_path = Ok tt) /\
   (fst (load_cv L temp_path self) = Ok false ->
    Main.os_unlink H temp_path = Ok tt ->
    fst (Main.upload_cv L H filename self) =
    Ok (Main.HTTPException 500
          ("Error processing CV: " ++ Main.http_str H 400 "Failed to parse CV file"))) /\
   (forall e,
       Main.os_unlink H temp_path = Raise e ->
       fst (Main.upload_cv L H filename self) =
       Ok (Main.HTTPException 500 ("Error processing CV: " ++ exn_str e)))) /\
  (exists r,
      fst (Main.upload_cv L H filename self) = Ok r /\
      (r = Main.Http200 ("CV uploaded and parsed successfully", filename) \/
       exists detail, r = Main.HTTPException 500 detail)).
Proof.
  intros temp_path.
  unfold Main.upload_cv, Main.or_500, Main.abort, bind, lift, ret. fold temp_path.
  destruct (Main.save_upload H temp_path) as [[]|e0].
  2:{ split; [intros e He; inversion He; reflexivity|].
      split; [discriminate|]. eexists. split; [reflexivity|]. right. eauto. }
  split; [discriminate|].
  destruct (load_cv_returns L temp_path self) as (b & Hb).
  destruct (load_cv L temp_path self) as [r s']. cbn [fst snd] in *. subst r.
  destruct b; destruct (Main.os_unlink H temp_path) as [[]|e1]; cbn [fst snd].
  - split.
    + intros _. split; [reflexivity|]. split; [|split; [discriminate|discriminate]].
      split; [intros _; now split | reflexivity].
    + eexists. split; [reflexivity|]. now left.
  - split.
    + intros _. split; [reflexivity|]. split; [|split; [discriminate|]].
      * split; [discriminate | intros [_ Hc]; discriminate].
      * intros e He. inversion He. reflexivity.
    + eexists. split; [reflexivity|]. right. eauto.
  - split.
    + intros _. split; [reflexivity|]. split; [|split; [reflexivity|discriminate]].
      split; [discriminate | intros [Hc _]; discriminate].
    + eexists. split; [reflexivity|]. right. eauto.
  - split.
    + intros _. split; [reflexivity|]. split; [|split; [discriminate|]].
      * split; [discriminate | intros [Hc _]; discriminate].
      * intros e He. inversion He. reflexivity.
    + eexists. split; [reflexivity|]. right. eauto.
Qed.

Lemma upload_endpoint_status_witness :
  Main.upload_cv (one_file "Experience" [])
                 (Main.mkHost (fun c d => d) (fun _ => Raise (LibraryError "disk full"))
                              (fun _ => Ok tt))
                 "cv.txt" loaded_parser =
  (Ok (Main.HTTPException 500 "Error processing CV: disk full"), loaded_parser).
Proof.
  destruct (upload_endpoint_status (one_file "Experience" [])
              (Main.mkHost (fun c d => d) (fun _ => Raise (LibraryError "disk full"))
                           (fun _ => Ok tt))
              "cv.txt" loaded_parser) as [Hsave _].
  exact (Hsave (LibraryError "disk full") eq_refl).
Defined.

(** ** Edge cases of the responders *)

Lemma score_no_words L content : score L [] content = 0%Q.
Proof. reflexivity. Qed.

(** X24. [_general_search] finds nothing when there is nothing to
    match: if every token of the question is a stop word (or the
    question has no token), or if no section has text, it returns the
    fixed not-found answer with confidence 0.2 and no sources. *)
Theorem general_search_nothing_to_match (L : Libs) (question : string)
        (self : CVParser) :
  content_words L question = [] \/
  (forall item, In item (cv_sections self) -> Py.truthy (snd item) = false) ->
  _general_search L question self = (Ok not_found, self).
Proof.
  intros Hcase. rewrite general_search_unfold.
  rewrite search_fold_skip; [reflexivity|].
  intros it Hin Ht. destruct Hcase as [Hq|Hs].
  - rewrite Hq, score_no_words. apply Qle_refl.
  - rewrite (Hs it Hin) in Ht. discriminate.
Qed.

Lemma general_search_nothing_to_match_witness :
  _general_search (one_file "" []) "about the" loaded_parser =
  (Ok not_found, loaded_parser).
Proof.
  apply (general_search_nothing_to_match (one_file "" []) "about the" loaded_parser).
  left. reflexivity.
Defined.

(** X25. After a load that returned [True], a skills question is
    answered from the keywords found anywhere in the text: when some
    keyword of the fixed list occurs in the lower-cased text the answer
    lists exactly those keywords, each once, in the order the set is
    iterated, at confidence 0.8, whatever the recogniser found and
    whether or not there is a skills section; only when none occurs is
    the skills section quoted (its first 200 characters, at 0.7), and
    without one the fixed fallback is given at 0.4.  The iteration of a
    set is taken to give each of its elements once. *)
Theorem skills_answer_after_load (L : Libs) (file_path question : string)
        (self : CVParser) (content : string) :
  read_content L file_path = Ok content ->
  fst (load_cv L file_path self) = Ok true ->
  (forall l, Permutation (set_iter L l) (nodup string_dec l)) ->
  let self' := snd (load_cv L file_path self) in
  let techs := filter (fun tech => Py.contains tech (Py.lower content)) tech_keywords in
  let skills_section := Py.get (parse_sections content) "skills" "" in
  exists shown,
    Permutation shown techs /\
    _answer_skills_question L question self' =
    (Ok (match techs with
         | _ :: _ =>
             ("Technologies and skills mentioned: " ++ Py.join ", " shown,
              0.8%Q, ["skills"])
         | [] =>
             if Py.truthy skills_section
             then ("Skills section: " ++ Py.take 200 skills_section ++ "...",
                   0.7%Q, ["skills"])
             else ("No specific skills section found, but may be mentioned throughout the CV.",
                   0.4%Q, ["skills"])
         end), self').
Proof.
  intros Hr Hok Hset self' techs skills_section. subst self'.
  destruct (load_cv_cases L file_path self)
    as [[E _]|[(c & ents & Hc & _ & _ & E)|(c & e & _ & _ & _ & E)]];
    rewrite E in Hok |- *; cbn [fst snd] in *; try discriminate.
  rewrite Hr in Hc. inversion Hc; subst c. clear Hc.
  exists (set_iter L techs). split.
  - rewrite <- (nodup_fixed_point string_dec (l := techs)) at 2; [apply Hset|].
    apply NoDup_filter, tech_keywords_nodup.
  - unfold _answer_skills_question, bind, gets. cbn [cv_sections cv_entities].
    assert (Et : Py.get (extract ents content (parse_sections content))
                        "technologies" [] = techs).
    { unfold extract.
      destruct (route_fold ents no_entities) as (_ & _ & _ & _ & Hte).
      change (Py.get (entities_dict ?x) "technologies" []) with (technologies x).
      cbn [technologies]. rewrite Hte. reflexivity. }
    rewrite Et. fold skills_section.
    destruct techs; [destruct (Py.truthy skills_section)|]; reflexivity.
Qed.

Lemma skills_answer_after_load_witness :
  exists shown,
    Permutation shown ["python"; "docker"] /\
    _answer_skills_question (one_file ("Skills" ++ Py.NL ++ "Python and Docker") [])
      "Which skills?"
      (snd (load_cv (one_file ("Skills" ++ Py.NL ++ "Python and Docker") [])
                    "cv.txt" init))
    = (Ok ("Technologies and skills mentioned: " ++ Py.join ", " shown,
           0.8%Q, ["skills"]),
       snd (load_cv (one_file ("Skills" ++ Py.NL ++ "Python and Docker") [])
                    "cv.txt" init)).
Proof.
  apply (skills_answer_after_load
           (one_file ("Skills" ++ Py.NL ++ "Python and Docker") [])
           "cv.txt" "Which skills?" init ("Skills" ++ Py.NL ++ "Python and Docker")).
  - reflexivity.
  - reflexivity.
  - intros l. apply Permutation_refl.
Defined.

(** ** The shape properties at concrete documents *)

Lemma sections_shape_witness :
  Py.truthy scenario_experience = true /\
  forall line, In line (Py.split Py.nl scenario_experience) -> Py.truthy line = true.
Proof.
  destruct (sections_shape scenario_doc) as (_ & _ & Hbody).
  apply (Hbody "experience" scenario_experience).
  vm_compute. left. reflexivity.
Defined.

Lemma organizations_extend_recognised_witness :
  Py.get (extract [("ORG", "Initech"); ("DATE", "2020")]
                  "Worked at Initech" [("other", "Worked at Initech")])
         "organizations" [] = ["Initech"].
Proof.
  destruct (organizations_extend_recognised
              [("ORG", "Initech"); ("DATE", "2020")]
              "Worked at Initech" [("other", "Worked at Initech")]) as [_ Hnone].
  apply Hnone. reflexivity.
Defined.

Lemma technologies_are_keywords_witness :
  In "docker" (Py.get (extract [] "Runs Docker on AWS" []) "technologies" []).
Proof.
  destruct (technologies_are_keywords [] "Runs Docker on AWS" [])
    as (_ & _ & Hiff).
  apply Hiff. split; [simpl; tauto | reflexivity].
Defined.
